(** * rosinterface_handler: the SmartSubscriber

    A shallow embedding of [include/rosinterface_handler/smart_subscriber.hpp]
    and the properties of its conditional-subscription logic.

    The class is a thin decorator over three collaborators that live outside
    the repository: the C++ standard library ([std::getenv], [std::stoi]),
    the subscription handle it derives from ([message_filters::Subscriber])
    and the publication registry ([ros::TopicManager], [ros::Publication]).
    Their models are kept apart from the embedding of the class itself and
    say where they come from.

    Member functions are run one at a time: [callbackLock_] serialises the
    re-evaluation and the teardown, and is not modelled further. *)

From Stdlib Require Import ZArith NArith Ascii String List Lia.
From stdpp Require Import base option list gmap strings.

Local Open Scope Z_scope.

(** ** The C++ standard library: [std::stoi] *)

(** Outcome of [std::stoi(str)] (base 10, no position output): the converted
    [int], or one of the two exceptions of [string.conversions]. *)
Inductive StoiResult :=
| Parsed (value : Z)
| invalid_argument
| out_of_range.

Definition INT_MIN : Z := - 2 ^ 31.
Definition INT_MAX : Z := 2 ^ 31 - 1.

(** [isspace] in the "C" locale: space, [\t], [\n], [\v], [\f], [\r]. *)
Definition isspace (c : ascii) : bool :=
  let n := N_of_ascii c in
  (n =? 32)%N || ((9 <=? n)%N && (n <=? 13)%N).

Definition digit_value (c : ascii) : option Z :=
  let n := N_of_ascii c in
  if ((48 <=? n)%N && (n <=? 57)%N)%bool then Some (Z.of_N n - 48) else None.

Fixpoint skip_whitespace (s : string) : string :=
  match s with
  | String c rest => if isspace c then skip_whitespace rest else s
  | EmptyString => s
  end.

(** The longest run of decimal digits at the head of [s], accumulated into
    [acc]; whatever follows the run is ignored, as [strtol] does. *)
Fixpoint read_digits (acc : Z) (s : string) : Z :=
  match s with
  | String c rest =>
      match digit_value c with
      | Some d => read_digits (10 * acc + d) rest
      | None => acc
      end
  | EmptyString => acc
  end.

(** [std::stoi]: [strtol] with base 10 (leading white space, an optional
    sign, then digits); [std::invalid_argument] when no digit could be
    consumed, [std::out_of_range] when the value does not fit an [int]. *)
Definition stoi (str : string) : StoiResult :=
  let s := skip_whitespace str in
  let '(negative, body) :=
    match s with
    | String "-"%char rest => (true, rest)
    | String "+"%char rest => (false, rest)
    | _ => (false, s)
    end in
  match body with
  | String c _ =>
      match digit_value c with
      | Some _ =>
          let magnitude := read_digits 0 body in
          let value := if negative then - magnitude else magnitude in
          if ((INT_MIN <=? value) && (value <=? INT_MAX))%bool
          then Parsed value else out_of_range
      | None => invalid_argument
      end
  | EmptyString => invalid_argument
  end.

(** ** Data model *)

(** A tracked publisher is owned by the caller; the subscriber only keeps a
    reference to it.  References are identifiers into the caller's store. *)
Definition PubId := nat.

(** What the subscriber can observe of a publisher: [getTopic()] and
    [getNumSubscribers()] (a [uint32_t]). *)
Record Publisher := {
  pub_getTopic : string;
  pub_getNumSubscribers : N;
}.

(** The caller's publishers.  The caller contract of [addPublisher] (a tracked
    publisher outlives the subscriber) makes every reference valid, so the
    store is total. *)
Definition Publishers := PubId -> Publisher.

(** [struct PublisherInfo]: two closures over the referenced publisher, and
    the topic name recorded when the closure was last consulted. *)
Record PublisherInfo := {
  getTopic : Publishers -> string;
  getNumSubscriber : Publishers -> N;
  topic : string;
}.

(** The two function objects a [ros::SubscriberCallbacks] can hold here: the
    bound [&SmartSubscriber::subscribeCallback, this] installed by the
    constructor, or the empty lambda installed by the destructor. *)
Inductive Hook :=
| BoundSubscribeCallback
| EmptyLambda.

(** [ros::SubscriberCallbacks]: the object behind the shared pointer
    [callback_].  The registry and every caller of [callback()] hold the
    same object. *)
Record SubscriberCallbacks := {
  connect_ : Hook;
  disconnect_ : Hook;
}.

(** Calls that leave the class, in the order they are issued. *)
Inductive Event :=
| EvGetenv
| EvLookupPublication (t : string)
| EvAddCallbacks (t : string)
| EvRemoveCallbacks (t : string)
| EvBaseSubscribe (t : string) (queue_size : N)
| EvSubscribe
| EvUnsubscribe.

(** The part of the process the class reads or writes but does not own. *)
Record Ros := {
  NO_SMART_SUBSCRIBE : option string;
  publishers : Publishers;
  publications : gmap string nat;
}.

(** A constructed [SmartSubscriber] together with its surroundings.
    [callback_] is assigned once, in the constructor, before anything reads
    it, so it is never null in a [State]. *)
Record State := {
  ros : Ros;
  sub_ : bool;
  publisherInfo_ : list PublisherInfo;
  callback_ : SubscriberCallbacks;
  smart_ : bool;
  trace : list Event;
}.

Definition set_ros (f : Ros -> Ros) (st : State) : State :=
  {| ros := f (ros st); sub_ := sub_ st; publisherInfo_ := publisherInfo_ st;
     callback_ := callback_ st; smart_ := smart_ st; trace := trace st |}.

Definition set_sub_ (b : bool) (st : State) : State :=
  {| ros := ros st; sub_ := b; publisherInfo_ := publisherInfo_ st;
     callback_ := callback_ st; smart_ := smart_ st; trace := trace st |}.

Definition set_publisherInfo_ (l : list PublisherInfo) (st : State) : State :=
  {| ros := ros st; sub_ := sub_ st; publisherInfo_ := l;
     callback_ := callback_ st; smart_ := smart_ st; trace := trace st |}.

Definition set_callback_ (c : SubscriberCallbacks) (st : State) : State :=
  {| ros := ros st; sub_ := sub_ st; publisherInfo_ := publisherInfo_ st;
     callback_ := c; smart_ := smart_ st; trace := trace st |}.

Definition set_smart_ (b : bool) (st : State) : State :=
  {| ros := ros st; sub_ := sub_ st; publisherInfo_ := publisherInfo_ st;
     callback_ := callback_ st; smart_ := b; trace := trace st |}.

Definition set_trace (t : list Event) (st : State) : State :=
  {| ros := ros st; sub_ := sub_ st; publisherInfo_ := publisherInfo_ st;
     callback_ := callback_ st; smart_ := smart_ st; trace := t |}.

Definition set_publications (m : gmap string nat) (w : Ros) : Ros :=
  {| NO_SMART_SUBSCRIBE := NO_SMART_SUBSCRIBE w; publishers := publishers w;
     publications := m |}.

Definition set_publishers (ps : Publishers) (w : Ros) : Ros :=
  {| NO_SMART_SUBSCRIBE := NO_SMART_SUBSCRIBE w; publishers := ps;
     publications := publications w |}.

(** ** Effects *)

(** How a member function can fail to return: undefined behaviour
    ([back()] of an empty vector, a hook run on a destroyed object), or an
    exception that nothing catches. *)
Inductive Failure :=
| UndefinedBehaviour
| Uncaught_out_of_range.

Inductive Result (A : Type) :=
| Ok (a : A)
| Fail (f : Failure).
Arguments Ok {A} a.
Arguments Fail {A} f.

(** Member functions are state transformers that may fail. *)
Definition M (A : Type) : Type := State -> Result (A * State).

Definition ret {A} (a : A) : M A := fun st => Ok (a, st).

Definition bind {A B} (m : M A) (k : A -> M B) : M B :=
  fun st => match m st with
            | Ok (a, st') => k a st'
            | Fail f => Fail f
            end.

Declare Scope cpp_scope.
Delimit Scope cpp_scope with cpp.
Notation "'do' x <- m ; k" := (bind m (fun x => k))
  (at level 10, x name, m at level 100, k at level 200) : cpp_scope.
Notation "m ;; k" := (bind m (fun _ => k))
  (at level 100, k at level 200, right associativity) : cpp_scope.
Local Open Scope cpp_scope.

Definition get : M State := fun st => Ok (st, st).
Definition gets {A} (f : State -> A) : M A := fun st => Ok (f st, st).
Definition modify (f : State -> State) : M unit := fun st => Ok (tt, f st).
Definition fail {A} (f : Failure) : M A := fun _ => Fail f.
Definition emit (e : Event) : M unit :=
  modify (fun st => set_trace (trace st ++ [e]) st).
Definition when (b : bool) (m : M unit) : M unit := if b then m else ret tt.

(** A range-based [for] over a snapshot of the elements. *)
Fixpoint for_each {A} (l : list A) (body : A -> M unit) : M unit :=
  match l with
  | [] => ret tt
  | x :: rest => body x ;; for_each rest body
  end.

(** The state a member function leaves behind, if it returns. *)
Definition exec {A} (m : M A) (st : State) : Result State :=
  match m st with
  | Ok (_, st') => Ok st'
  | Fail f => Fail f
  end.

(** ** The collaborators *)

(** [std::getenv("NO_SMART_SUBSCRIBE")]. *)
Definition getenv : M (option string) :=
  emit EvGetenv ;; gets (fun st => NO_SMART_SUBSCRIBE (ros st)).

(** Modelled from the spec: the subscription handle of the messaging
    framework ([message_filters::Subscriber], the base class), which the
    repository inherits and does not define.  The spec gives it a binary
    subscription state, observed by a query and changed only by its
    subscribe and unsubscribe operations. *)
Definition Subscriber_subscribe_to (topic' : string) (queue_size : N) : M unit :=
  emit (EvBaseSubscribe topic' queue_size) ;; modify (set_sub_ true).

Definition Subscriber_subscribe : M unit :=
  emit EvSubscribe ;; modify (set_sub_ true).

Definition Subscriber_unsubscribe : M unit :=
  emit EvUnsubscribe ;; modify (set_sub_ false).

(** Modelled from the spec: the publication registry of the messaging
    framework ([ros::TopicManager] and [ros::Publication]), not defined in the
    repository: a lookup by topic name that may find nothing, and on a found
    publication the addition and removal of a status-callback pair.  The map
    holds, per advertised topic, how many times [callback_] is registered. *)
Definition lookupPublication (t : string) : M (option string) :=
  emit (EvLookupPublication t) ;;
  gets (fun st => match publications (ros st) !! t with
                  | Some _ => Some t
                  | None => None
                  end).

Definition registered (w : Ros) (t : string) : nat :=
  default 0%nat (publications w !! t).

Definition addCallbacks (pub : string) : M unit :=
  emit (EvAddCallbacks pub) ;;
  modify (set_ros (fun w => set_publications (<[pub := S (registered w pub)]> (publications w)) w)).

Definition removeCallbacks (pub : string) : M unit :=
  emit (EvRemoveCallbacks pub) ;;
  modify (set_ros (fun w => set_publications (<[pub := Nat.pred (registered w pub)]> (publications w)) w)).

(** ** The class *)

(** [publisherInfo_.back()]: undefined on an empty vector. *)
Definition back : M PublisherInfo :=
  fun st => match last (publisherInfo_ st) with
            | Some p => Ok (p, st)
            | None => Fail UndefinedBehaviour
            end.

Definition isSubscribed (st : State) : bool := sub_ st.

Definition smart (st : State) : bool := smart_ st.

(** The predicate of [subscribeCallback]: [!smart() || any_of(...)]. *)
Definition any_subscribers (st : State) : bool :=
  existsb (fun p => (0 <? getNumSubscriber p (publishers (ros st)))%N) (publisherInfo_ st).

Definition subscribeCallback : M unit :=
  do st <- get;
  let subscribed := isSubscribed st in
  let subscribe := negb (smart st) || any_subscribers st in
  when (subscribe && negb subscribed) Subscriber_subscribe ;;
  when (negb subscribe && subscribed) Subscriber_unsubscribe.

(** The parameter is not used by the body: the lookup key is the stored
    topic of the last record. *)
Definition addCallback (topic' : string) : M unit :=
  do last_info <- back;
  do pub <- lookupPublication (topic last_info);
  match pub with
  | Some p => addCallbacks p
  | None => ret tt
  end.

Definition removeCallback (topic' : string) : M unit :=
  do last_info <- back;
  do pub <- lookupPublication (topic last_info);
  match pub with
  | Some p => removeCallbacks p
  | None => ret tt
  end.

Definition setSmart (smart' : bool) : M unit :=
  modify (set_smart_ smart') ;; subscribeCallback.

Definition subscribe (topic' : string) (queue_size : N) : M unit :=
  Subscriber_subscribe_to topic' queue_size ;; subscribeCallback.

Definition addPublisher (publisher : PubId) : M unit :=
  do st <- get;
  modify (set_publisherInfo_
            (publisherInfo_ st ++
               [{| getTopic := fun ps => pub_getTopic (ps publisher);
                   getNumSubscriber := fun ps => pub_getNumSubscribers (ps publisher);
                   topic := pub_getTopic (publishers (ros st) publisher) |}])) ;;
  do last_info <- back;
  addCallback (topic last_info) ;;
  subscribeCallback.

(** [std::find_if]: the position of the first record for which [pred] holds. *)
Fixpoint find_if {A} (pred : A -> bool) (l : list A) : option nat :=
  match l with
  | [] => None
  | x :: rest => if pred x then Some 0%nat else S <$> find_if pred rest
  end.

Definition removePublisher (topic' : string) : M bool :=
  do st <- get;
  match find_if (fun pubInfo => String.eqb topic' (getTopic pubInfo (publishers (ros st))))
                (publisherInfo_ st) with
  | None => ret false
  | Some found =>
      modify (set_publisherInfo_ (delete found (publisherInfo_ st))) ;;
      removeCallback topic' ;;
      ret true
  end.

(** One iteration of the loop of [updateTopics], on the record at position
    [i] of the vector. *)
Definition updateTopic (i : nat) : M unit :=
  do st <- get;
  match publisherInfo_ st !! i with
  | None => ret tt
  | Some publisher =>
      let currTopic := getTopic publisher (publishers (ros st)) in
      if negb (String.eqb currTopic (topic publisher)) then
        addCallback currTopic ;;
        removeCallback (topic publisher) ;;
        modify (fun st' =>
          set_publisherInfo_
            (<[i := {| getTopic := getTopic publisher;
                       getNumSubscriber := getNumSubscriber publisher;
                       topic := currTopic |}]> (publisherInfo_ st')) st')
      else ret tt
  end.

Definition updateTopics : M unit :=
  do st <- get;
  for_each (seq 0 (length (publisherInfo_ st))) updateTopic.

(** [callback()]: the shared callback object. *)
Definition callback (st : State) : SubscriberCallbacks := callback_ st.

(** The object at the start of the constructor body: default member
    initialisers ([smart_{true}], an empty vector), an unsubscribed base, no
    call issued yet.  The callback object of line 75 is placed here: nothing
    reads [callback_] before that line. *)
Definition fresh (w : Ros) : State :=
  {| ros := w; sub_ := false; publisherInfo_ := [];
     callback_ := {| connect_ := BoundSubscribeCallback;
                     disconnect_ := BoundSubscribeCallback |};
     smart_ := true; trace := [] |}.

(** The [try] block of the constructor: [std::invalid_argument] is caught and
    dropped, [std::out_of_range] is not caught. *)
Definition check_always_on : M unit :=
  do smart_subscribe <- getenv;
  match smart_subscribe with
  | None => ret tt
  | Some value =>
      match stoi value with
      | Parsed n => when (0 <? n) (setSmart false)
      | invalid_argument => ret tt
      | out_of_range => fail Uncaught_out_of_range
      end
  end.

Definition SmartSubscriber (trackedPublishers : list PubId) (w : Ros) : Result State :=
  exec (check_always_on ;; for_each trackedPublishers addPublisher) (fresh w).

(** What is left once the object is gone: the surroundings, the callback
    object (kept alive by its other holders), and the calls issued so far. *)
Record Remains := {
  r_ros : Ros;
  r_callback : SubscriberCallbacks;
  r_trace : list Event;
}.

Definition SmartSubscriber_dtor (st : State) : Result Remains :=
  match exec (for_each (publisherInfo_ st) (fun pub => removeCallback (topic pub)) ;;
              modify (fun st' => set_callback_ {| connect_ := connect_ (callback_ st');
                                                  disconnect_ := EmptyLambda |} st') ;;
              modify (fun st' => set_callback_ {| connect_ := EmptyLambda;
                                                  disconnect_ := disconnect_ (callback_ st') |} st'))
             st with
  | Ok st' => Ok {| r_ros := ros st'; r_callback := callback_ st'; r_trace := trace st' |}
  | Fail f => Fail f
  end.

(** The framework running a hook of the callback object while the subscriber
    is alive. *)
Definition run_hook (h : Hook) : M unit :=
  match h with
  | BoundSubscribeCallback => subscribeCallback
  | EmptyLambda => ret tt
  end.

(** The framework running a hook once the subscriber has been destroyed: the
    bound member function would be entered with a dangling [this]. *)
Definition run_hook_after_dtor (h : Hook) (r : Remains) : Result Remains :=
  match h with
  | BoundSubscribeCallback => Fail UndefinedBehaviour
  | EmptyLambda => Ok r
  end.

(** A peer connects to or disconnects from publisher [p], whose subscriber
    count becomes [n]; the framework then runs the hook. *)
Definition set_numSubscribers (p : PubId) (n : N) (ps : Publishers) : Publishers :=
  fun q => if Nat.eqb q p
           then {| pub_getTopic := pub_getTopic (ps q); pub_getNumSubscribers := n |}
           else ps q.

Definition deliver (p : PubId) (n : N) : M unit :=
  modify (set_ros (fun w => set_publishers (set_numSubscribers p n (publishers w)) w)) ;;
  do st <- get;
  run_hook (connect_ (callback st)).

(** ** Observations used by the statements *)

(** The aggregate predicate the class documentation promises to follow. *)
Definition should_subscribe (st : State) : bool :=
  negb (smart st) || any_subscribers st.

(** The subscription state agrees with the aggregate predicate. *)
Definition in_step (st : State) : Prop :=
  isSubscribed st = should_subscribe st.

(** The calls a member function adds to the trace, when it returns. *)
Definition issued {A} (m : M A) (st : State) : option (list Event) :=
  match m st with
  | Ok (_, st') => Some (drop (length (trace st)) (trace st'))
  | Fail _ => None
  end.

(** The topics handed to the registry lookup, in order. *)
Fixpoint lookups (evs : list Event) : list string :=
  match evs with
  | [] => []
  | EvLookupPublication t :: rest => t :: lookups rest
  | _ :: rest => lookups rest
  end.

Definition looked_up {A} (m : M A) (st : State) : option (list string) :=
  lookups <$> issued m st.

Fixpoint count_getenv (evs : list Event) : nat :=
  match evs with
  | [] => 0
  | EvGetenv :: rest => S (count_getenv rest)
  | _ :: rest => count_getenv rest
  end.

Definition is_subscription_call (e : Event) : bool :=
  match e with
  | EvSubscribe | EvUnsubscribe => true
  | _ => false
  end.

(** Running a member function on the outcome of an earlier one. *)
Definition and_then {A} (r : Result State) (m : M A) : Result (A * State) :=
  match r with
  | Ok st => m st
  | Fail f => Fail f
  end.

(** The reading of "the topic argument and the looked-up topic coincide only
    for the final element": whenever a helper is called with the stored topic
    of the record at position [i] and looks that same topic up, [i] is the
    last position. *)
Definition coincide_only_at_back (st : State) : Prop :=
  forall (i : nat) (p : PublisherInfo),
    publisherInfo_ st !! i = Some p ->
    looked_up (removeCallback (topic p)) st = Some [topic p] ->
    S i = length (publisherInfo_ st).

(** What can happen to a constructed subscriber: a call of one of its
    public member functions, or the framework delivering a status
    notification. *)
Inductive Operation :=
| OpSubscribe (topic' : string) (queue_size : N)
| OpAddPublisher (publisher : PubId)
| OpRemovePublisher (topic' : string)
| OpUpdateTopics
| OpSetSmart (smart' : bool)
| OpSubscribeCallback
| OpDeliver (p : PubId) (n : N).

Definition run_op (op : Operation) : M unit :=
  match op with
  | OpSubscribe t q => subscribe t q
  | OpAddPublisher p => addPublisher p
  | OpRemovePublisher t => do _ <- removePublisher t; ret tt
  | OpUpdateTopics => updateTopics
  | OpSetSmart b => setSmart b
  | OpSubscribeCallback => subscribeCallback
  | OpDeliver p n => deliver p n
  end.

(** ** Scenarios *)

(** Two publishers: [0] advertises ["/out"] and has one subscriber, every
    other identifier advertises ["/aux"] and has none. *)
Definition two_publishers : Publishers :=
  fun q => match q with
           | O => {| pub_getTopic := "/out"; pub_getNumSubscribers := 1 |}
           | _ => {| pub_getTopic := "/aux"; pub_getNumSubscribers := 0 |}
           end.

Definition world (env : option string) (ps : Publishers) : Ros :=
  {| NO_SMART_SUBSCRIBE := env; publishers := ps;
     publications := {[ "/out"%string := 0%nat; "/aux"%string := 0%nat;
                        "/new"%string := 0%nat ]} |}.

(** Every publisher advertises the same topic ["/out"]. *)
Definition same_topic_publishers : Publishers :=
  fun _ => {| pub_getTopic := "/out"; pub_getNumSubscribers := 0 |}.

(** A reconfigure request moves every publisher to the topic [t]. *)
Definition retopic (t : string) (ps : Publishers) : Publishers :=
  fun q => {| pub_getTopic := t; pub_getNumSubscribers := pub_getNumSubscribers (ps q) |}.

Definition reconfigure (t : string) : M unit :=
  modify (set_ros (fun w => set_publishers (retopic t (publishers w)) w)).

(** ** Vocabulary of the further properties *)

(** The record [addPublisher] appends for [publisher], given the publishers
    as they are at the time of the call. *)
Definition tracked_record (ps : Publishers) (publisher : PubId) : PublisherInfo :=
  {| getTopic := fun ps' => pub_getTopic (ps' publisher);
     getNumSubscriber := fun ps' => pub_getNumSubscribers (ps' publisher);
     topic := pub_getTopic (ps publisher) |}.

(** The stored name of a record lags behind the live one: the test of the
    loop of [updateTopics]. *)
Definition stale (ps : Publishers) (p : PublisherInfo) : bool :=
  negb (String.eqb (getTopic p ps) (topic p)).

(** The record [updateTopics] leaves in place of [p]: the same closures, and
    the live topic as the stored name. *)
Definition refresh (ps : Publishers) (p : PublisherInfo) : PublisherInfo :=
  {| getTopic := getTopic p;
     getNumSubscriber := getNumSubscriber p;
     topic := getTopic p ps |}.

Definition count_stale (ps : Publishers) (l : list PublisherInfo) : nat :=
  length (List.filter (stale ps) l).

(** The stored topic of the last record, the key of every registry lookup
    (the empty string stands in when nothing is tracked and no lookup is
    made). *)
Definition back_topic (st : State) : string :=
  default ""%string (topic <$> last (publisherInfo_ st)).

(** The test of the constructor's [try] block: the variable is set and
    [std::stoi] converts it to a positive [int]. *)
Definition always_on (w : Ros) : bool :=
  match NO_SMART_SUBSCRIBE w with
  | Some value =>
      match stoi value with
      | Parsed n => 0 <? n
      | _ => false
      end
  | None => false
  end.

(** The callback object as the constructor builds it. *)
Definition bound_callbacks : SubscriberCallbacks :=
  {| connect_ := BoundSubscribeCallback; disconnect_ := BoundSubscribeCallback |}.

(** The test of [removePublisher]'s [find_if]. *)
Definition matches (topic' : string) (ps : Publishers) (pubInfo : PublisherInfo) : bool :=
  String.eqb topic' (getTopic pubInfo ps).

Definition is_removal (op : Operation) : bool :=
  match op with
  | OpRemovePublisher _ => true
  | _ => false
  end.

(** A history of operations, run in order. *)
Definition run_ops (ops : list Operation) : M unit := for_each ops run_op.

(** What adding, or removing, one registration of the callback does to the
    registry: nothing for a topic the registry does not know. *)
Definition registry_after_add (t : string) (m : gmap string nat) : gmap string nat :=
  match m !! t with
  | Some n => <[t := S n]> m
  | None => m
  end.

Definition registry_after_remove (t : string) (m : gmap string nat) : gmap string nat :=
  match m !! t with
  | Some n => <[t := Nat.pred n]> m
  | None => m
  end.

(** ** The re-evaluation routine *)

Ltac unfold_monad :=
  unfold setSmart, subscribe, subscribeCallback, Subscriber_subscribe,
    Subscriber_subscribe_to, Subscriber_unsubscribe, getenv, when, emit,
    modify, gets, get, bind, ret, fail in *.

(** The subscription state [subscribeCallback] leaves, and what it costs. *)
Lemma subscribeCallback_eq (st : State) :
  subscribeCallback st =
  Ok (tt,
      if Bool.eqb (isSubscribed st) (should_subscribe st) then st
      else set_sub_ (should_subscribe st)
             (set_trace (trace st ++ [if should_subscribe st then EvSubscribe
                                      else EvUnsubscribe]) st)).
Proof.
  unfold_monad. unfold should_subscribe, isSubscribed.
  destruct (negb (smart st) || any_subscribers st), (sub_ st); reflexivity.
Qed.

Lemma any_subscribers_spec (st : State) :
  any_subscribers st = true <->
  exists p, p ∈ publisherInfo_ st /\ (0 < getNumSubscriber p (publishers (ros st)))%N.
Proof.
  unfold any_subscribers. rewrite existsb_exists. split.
  - intros (p & Hin & Hpos). exists p. split.
    + now apply list_elem_of_In.
    + now apply N.ltb_lt.
  - intros (p & Hin & Hpos). exists p. split.
    + now apply list_elem_of_In.
    + now apply N.ltb_lt.
Qed.

Lemma subscribeCallback_in_step (st : State) :
  exists st', subscribeCallback st = Ok (tt, st') /\
    isSubscribed st' = should_subscribe st /\
    smart st' = smart st /\
    publisherInfo_ st' = publisherInfo_ st /\
    ros st' = ros st /\
    callback_ st' = callback_ st.
Proof.
  eexists. split; [apply subscribeCallback_eq|].
  unfold isSubscribed.
  destruct (Bool.eqb (sub_ st) (should_subscribe st)) eqn:E; simpl.
  - apply Bool.eqb_prop in E. auto.
  - auto.
Qed.

(** C2. Whatever the mode flag and the tracked publications (none
    included), [subscribeCallback] returns and leaves the component
    subscribed exactly when smart mode is off or some tracked publication has
    a subscriber; with no tracked publication, exactly when smart mode is
    off.  The mode flag, the tracked records and the surroundings are left
    as they were. *)
Theorem subscribeCallback_predicate (st : State) :
  (exists st', subscribeCallback st = Ok (tt, st') /\
     (isSubscribed st' = true <->
        smart st = false \/
        exists p, p ∈ publisherInfo_ st /\
                  (0 < getNumSubscriber p (publishers (ros st)))%N) /\
     smart st' = smart st /\ publisherInfo_ st' = publisherInfo_ st /\
     ros st' = ros st) /\
  (exists st', subscribeCallback (set_publisherInfo_ [] st) = Ok (tt, st') /\
     isSubscribed st' = negb (smart st) /\ publisherInfo_ st' = []).
Proof.
  split.
  - destruct (subscribeCallback_in_step st) as (st' & Hrun & Hsub & Hsmart & Hinfo & Hros & _).
    exists st'. split; [exact Hrun|]. split; [|auto].
    rewrite Hsub. unfold should_subscribe.
    rewrite Bool.orb_true_iff, Bool.negb_true_iff, any_subscribers_spec.
    reflexivity.
  - destruct (subscribeCallback_in_step (set_publisherInfo_ [] st))
      as (st' & Hrun & Hsub & _ & Hinfo & _).
    exists st'. repeat split; auto.
    rewrite Hsub. unfold should_subscribe, any_subscribers. simpl.
    apply Bool.orb_false_r.
Qed.

(** C3. [subscribeCallback] is idempotent: the first run issues at most one
    call, a subscribe or an unsubscribe; run again on the state it left, with
    nothing changed in between, it issues no call and leaves the state as it
    is. *)
Theorem subscribeCallback_idempotent (st : State) :
  exists (st1 : State) (calls : list Event),
    subscribeCallback st = Ok (tt, st1) /\
    trace st1 = trace st ++ calls /\
    (length calls <= 1)%nat /\
    forallb is_subscription_call calls = true /\
    subscribeCallback st1 = Ok (tt, st1) /\
    issued subscribeCallback st1 = Some [].
Proof.
  assert (Hfix : forall s, isSubscribed s = should_subscribe s ->
                           subscribeCallback s = Ok (tt, s)).
  { intros s Hs. rewrite subscribeCallback_eq, Hs.
    now rewrite Bool.eqb_reflx. }
  assert (Hnone : forall s, subscribeCallback s = Ok (tt, s) ->
                            issued subscribeCallback s = Some []).
  { intros s Hs. unfold issued. rewrite Hs. now rewrite drop_all. }
  destruct (Bool.eqb (isSubscribed st) (should_subscribe st)) eqn:E.
  - exists st, []. pose proof (subscribeCallback_eq st) as Hrun. rewrite E in Hrun.
    split; [exact Hrun|]. split; [now rewrite app_nil_r|].
    split; [simpl; lia|]. split; [reflexivity|]. split; [exact Hrun|].
    apply Hnone, Hrun.
  - eexists _, [_]. split; [rewrite subscribeCallback_eq, E; reflexivity|].
    split; [reflexivity|]. split; [simpl; lia|].
    split; [destruct (should_subscribe st); reflexivity|].
    assert (Hs : isSubscribed
                   (set_sub_ (should_subscribe st)
                      (set_trace (trace st ++ [if should_subscribe st then EvSubscribe
                                               else EvUnsubscribe]) st)) =
                 should_subscribe
                   (set_sub_ (should_subscribe st)
                      (set_trace (trace st ++ [if should_subscribe st then EvSubscribe
                                               else EvUnsubscribe]) st)))
      by reflexivity.
    split; [apply Hfix, Hs | apply Hnone, Hfix, Hs].
Qed.

(** ** The callback helpers *)

(** Both helpers do the same thing up to the registry operation: with a last
    record they return, leave the object as it was, and look up the stored
    topic of that record, whatever topic they were given. *)
Lemma addCallback_runs (topic' : string) (st : State) (p : PublisherInfo) :
  last (publisherInfo_ st) = Some p ->
  exists st', addCallback topic' st = Ok (tt, st') /\
    publisherInfo_ st' = publisherInfo_ st /\ sub_ st' = sub_ st /\
    smart_ st' = smart_ st /\ callback_ st' = callback_ st /\
    publishers (ros st') = publishers (ros st) /\
    NO_SMART_SUBSCRIBE (ros st') = NO_SMART_SUBSCRIBE (ros st) /\
    exists rest, trace st' = trace st ++ EvLookupPublication (topic p) :: rest /\
                 lookups rest = [] /\ count_getenv rest = 0%nat.
Proof.
  intros Hlast. unfold addCallback, back, lookupPublication, addCallbacks.
  unfold_monad. rewrite Hlast. simpl.
  destruct (publications (ros st) !! topic p); simpl.
  - eexists. split; [reflexivity|]. simpl. repeat (split; [reflexivity|]).
    exists [EvAddCallbacks (topic p)]. rewrite <- app_assoc. auto.
  - eexists. split; [reflexivity|]. simpl. repeat (split; [reflexivity|]).
    exists []. auto.
Qed.

Lemma removeCallback_runs (topic' : string) (st : State) (p : PublisherInfo) :
  last (publisherInfo_ st) = Some p ->
  exists st', removeCallback topic' st = Ok (tt, st') /\
    publisherInfo_ st' = publisherInfo_ st /\ sub_ st' = sub_ st /\
    smart_ st' = smart_ st /\ callback_ st' = callback_ st /\
    publishers (ros st') = publishers (ros st) /\
    NO_SMART_SUBSCRIBE (ros st') = NO_SMART_SUBSCRIBE (ros st) /\
    exists rest, trace st' = trace st ++ EvLookupPublication (topic p) :: rest /\
                 lookups rest = [] /\ count_getenv rest = 0%nat.
Proof.
  intros Hlast. unfold removeCallback, back, lookupPublication, removeCallbacks.
  unfold_monad. rewrite Hlast. simpl.
  destruct (publications (ros st) !! topic p); simpl.
  - eexists. split; [reflexivity|]. simpl. repeat (split; [reflexivity|]).
    exists [EvRemoveCallbacks (topic p)]. rewrite <- app_assoc. auto.
  - eexists. split; [reflexivity|]. simpl. repeat (split; [reflexivity|]).
    exists []. auto.
Qed.

(** On an empty vector both helpers run into [back()]. *)
Lemma removeCallback_empty (topic' : string) (st : State) :
  publisherInfo_ st = [] -> removeCallback topic' st = Fail UndefinedBehaviour.
Proof.
  intros Hnil. unfold removeCallback, back, bind. now rewrite Hnil.
Qed.

Lemma addCallback_empty (topic' : string) (st : State) :
  publisherInfo_ st = [] -> addCallback topic' st = Fail UndefinedBehaviour.
Proof.
  intros Hnil. unfold addCallback, back, bind. now rewrite Hnil.
Qed.

(** The aggregate predicate only reads the mode flag, the records and the
    publishers. *)
Lemma should_subscribe_ext (st st' : State) :
  smart_ st' = smart_ st -> publisherInfo_ st' = publisherInfo_ st ->
  publishers (ros st') = publishers (ros st) ->
  should_subscribe st' = should_subscribe st.
Proof.
  intros Hsmart Hinfo Hpubs.
  unfold should_subscribe, any_subscribers, smart. now rewrite Hsmart, Hinfo, Hpubs.
Qed.

Lemma count_getenv_app (l1 l2 : list Event) :
  count_getenv (l1 ++ l2) = (count_getenv l1 + count_getenv l2)%nat.
Proof.
  induction l1 as [|e l1 IH]; simpl; [reflexivity|].
  destruct e; simpl; rewrite IH; reflexivity.
Qed.

Lemma lookups_app (l1 l2 : list Event) :
  lookups (l1 ++ l2) = lookups l1 ++ lookups l2.
Proof.
  induction l1 as [|e l1 IH]; simpl; [reflexivity|].
  destruct e; simpl; rewrite IH; reflexivity.
Qed.

Lemma subscribeCallback_trace (st : State) :
  exists st' calls, subscribeCallback st = Ok (tt, st') /\
    trace st' = trace st ++ calls /\
    count_getenv calls = 0%nat /\ lookups calls = [].
Proof.
  rewrite subscribeCallback_eq.
  destruct (Bool.eqb (isSubscribed st) (should_subscribe st)).
  - exists st, []. rewrite app_nil_r. auto.
  - eexists _, [_]. split; [reflexivity|]. split; [reflexivity|].
    destruct (should_subscribe st); auto.
Qed.

(** ** The paths that re-evaluate *)

Lemma setSmart_in_step (b : bool) (st : State) :
  exists st', setSmart b st = Ok (tt, st') /\ in_step st' /\ smart st' = b.
Proof.
  destruct (subscribeCallback_in_step (set_smart_ b st))
    as (st' & Hrun & Hsub & Hsmart & Hinfo & Hros & _).
  exists st'. split; [|split].
  - unfold setSmart, modify, bind. exact Hrun.
  - unfold in_step. rewrite Hsub. symmetry.
    apply should_subscribe_ext; [exact Hsmart | exact Hinfo | now rewrite Hros].
  - rewrite Hsmart. reflexivity.
Qed.

Lemma subscribe_in_step (topic' : string) (queue_size : N) (st : State) :
  exists st', subscribe topic' queue_size st = Ok (tt, st') /\ in_step st'.
Proof.
  set (st0 := set_sub_ true (set_trace (trace st ++ [EvBaseSubscribe topic' queue_size]) st)).
  destruct (subscribeCallback_in_step st0) as (st' & Hrun & Hsub & Hsmart & Hinfo & Hros & _).
  exists st'. split.
  - unfold subscribe, Subscriber_subscribe_to, emit, modify, bind. exact Hrun.
  - unfold in_step. rewrite Hsub. symmetry.
    apply should_subscribe_ext; [exact Hsmart | exact Hinfo | now rewrite Hros].
Qed.

Lemma addPublisher_in_step (publisher : PubId) (st : State) :
  exists st', addPublisher publisher st = Ok (tt, st') /\ in_step st' /\
    smart st' = smart st /\
    NO_SMART_SUBSCRIBE (ros st') = NO_SMART_SUBSCRIBE (ros st) /\
    count_getenv (trace st') = count_getenv (trace st) /\
    exists p, publisherInfo_ st' = publisherInfo_ st ++ [p] /\
              topic p = pub_getTopic (publishers (ros st) publisher).
Proof.
  set (p0 := {| getTopic := fun ps => pub_getTopic (ps publisher);
                getNumSubscriber := fun ps => pub_getNumSubscribers (ps publisher);
                topic := pub_getTopic (publishers (ros st) publisher) |}).
  set (st0 := set_publisherInfo_ (publisherInfo_ st ++ [p0]) st).
  assert (Hlast : last (publisherInfo_ st0) = Some p0) by apply last_snoc.
  destruct (addCallback_runs (topic p0) st0 p0 Hlast)
    as (st1 & Hadd & Hinfo1 & Hsub1 & Hsmart1 & _ & Hpubs1 & Henv1 & rest & Htr1 & _ & Hge1).
  destruct (subscribeCallback_in_step st1)
    as (st2 & Hrun & Hsub2 & Hsmart2 & Hinfo2 & Hros2 & _).
  destruct (subscribeCallback_trace st1) as (st2' & calls & Hrun' & Htr2 & Hge2 & _).
  rewrite Hrun in Hrun'. injection Hrun' as <-.
  exists st2. split; [|split; [|split; [|split; [|split]]]].
  - unfold addPublisher, get, modify, bind at 1 2 3. simpl.
    fold p0. fold st0. unfold back. rewrite Hlast.
    unfold bind. rewrite Hadd. exact Hrun.
  - unfold in_step. rewrite Hsub2. symmetry.
    apply should_subscribe_ext; [exact Hsmart2 | exact Hinfo2 | now rewrite Hros2].
  - rewrite Hsmart2. unfold smart. now rewrite Hsmart1.
  - now rewrite Hros2, Henv1.
  - rewrite Htr2, Htr1, !count_getenv_app. simpl. rewrite Hge1, Hge2. simpl. lia.
  - exists p0. split; [|reflexivity]. now rewrite Hinfo2, Hinfo1.
Qed.

(** A status notification re-evaluates as long as the hook is the bound
    member function. *)
Lemma deliver_in_step (p : PubId) (n : N) (st : State) :
  connect_ (callback st) = BoundSubscribeCallback ->
  exists st', deliver p n st = Ok (tt, st') /\ in_step st'.
Proof.
  intros Hhook. unfold deliver, modify, get, bind. simpl.
  unfold callback in Hhook. rewrite Hhook. simpl.
  match goal with |- context [subscribeCallback ?s] =>
    destruct (subscribeCallback_in_step s) as (st' & Hrun & Hsub & Hsmart & Hinfo & Hros & _)
  end.
  exists st'. split; [exact Hrun|].
  unfold in_step. rewrite Hsub. symmetry.
  apply should_subscribe_ext; [exact Hsmart | exact Hinfo | now rewrite Hros].
Qed.

(** ** Removing a publisher *)

Lemma find_if_None {A} (pred : A -> bool) (l : list A) :
  find_if pred l = None <-> forall x, x ∈ l -> pred x = false.
Proof.
  induction l as [|a l IH]; simpl.
  - split; [|reflexivity]. intros _ x Hx. inversion Hx.
  - destruct (pred a) eqn:Ha.
    + split; [discriminate|]. intros H.
      rewrite (H a) in Ha by apply list_elem_of_here. discriminate.
    + rewrite fmap_None, IH. split.
      * intros H x Hx. apply elem_of_cons in Hx as [->|Hx]; auto.
      * intros H x Hx. apply H. now apply list_elem_of_further.
Qed.

Lemma find_if_Some {A} (pred : A -> bool) (l : list A) (i : nat) :
  find_if pred l = Some i ->
  exists x, l !! i = Some x /\ pred x = true /\
            forall j y, (j < i)%nat -> l !! j = Some y -> pred y = false.
Proof.
  revert i. induction l as [|a l IH]; simpl; intros i Hfind; [discriminate|].
  destruct (pred a) eqn:Ha.
  - injection Hfind as <-. exists a. repeat split; auto. intros j y Hj. lia.
  - apply fmap_Some in Hfind as (i' & Hfind & ->).
    destruct (IH i' Hfind) as (x & Hx & Hpx & Hbefore).
    exists x. repeat split; auto.
    intros [|j] y Hj Hy; simpl in Hy.
    + now injection Hy as <-.
    + apply (Hbefore j); [lia | exact Hy].
Qed.

(** No record matches: [false], and nothing at all has changed. *)
Lemma removePublisher_not_found (topic' : string) (st : State) :
  (forall p, p ∈ publisherInfo_ st -> getTopic p (publishers (ros st)) <> topic') ->
  removePublisher topic' st = Ok (false, st).
Proof.
  intros Hnone. unfold removePublisher, get, bind.
  replace (find_if _ (publisherInfo_ st)) with (@None nat); [reflexivity|].
  symmetry. apply find_if_None. intros p Hp. apply String.eqb_neq.
  intros ->. now apply (Hnone p).
Qed.

(** A record matches and another one is left after the erasure: [true], the
    first matching record is gone, and neither the mode flag nor the
    subscription state has been touched. *)
Lemma removePublisher_found (topic' : string) (st : State) (i : nat) :
  find_if (fun pubInfo => String.eqb topic' (getTopic pubInfo (publishers (ros st))))
          (publisherInfo_ st) = Some i ->
  delete i (publisherInfo_ st) <> [] ->
  exists st', removePublisher topic' st = Ok (true, st') /\
    publisherInfo_ st' = delete i (publisherInfo_ st) /\
    sub_ st' = sub_ st /\ smart_ st' = smart_ st /\
    publishers (ros st') = publishers (ros st).
Proof.
  intros Hfind Hleft.
  set (st0 := set_publisherInfo_ (delete i (publisherInfo_ st)) st).
  destruct (last (publisherInfo_ st0)) as [q|] eqn:Hlast.
  - destruct (removeCallback_runs topic' st0 q Hlast)
      as (st1 & Hrm & Hinfo & Hsub & Hsmart & _ & Hpubs & _).
    exists st1. split.
    + unfold removePublisher, get, bind at 1. rewrite Hfind.
      unfold modify, bind at 1. fold st0. unfold bind, ret. now rewrite Hrm.
    + auto.
  - apply last_None in Hlast. contradiction.
Qed.

(** A record matches and it was the only one: the helper is entered with an
    empty vector. *)
Lemma removePublisher_sole (topic' : string) (st : State) (i : nat) :
  find_if (fun pubInfo => String.eqb topic' (getTopic pubInfo (publishers (ros st))))
          (publisherInfo_ st) = Some i ->
  delete i (publisherInfo_ st) = [] ->
  removePublisher topic' st = Fail UndefinedBehaviour.
Proof.
  intros Hfind Hnil.
  unfold removePublisher, get, bind at 1. rewrite Hfind.
  unfold modify, bind at 1. unfold bind.
  rewrite removeCallback_empty; [reflexivity | exact Hnil].
Qed.

(** C1. The subscription state does not follow the aggregate predicate
    through [removePublisher].  A subscriber tracking ["/out"] (one
    subscriber) and ["/aux"] (none) is in step after construction and
    [subscribe]; removing ["/out"] returns [true] and leaves it in smart
    mode, with no tracked publication that has a subscriber, and still
    subscribed. *)
Theorem removePublisher_leaves_subscription_stale :
  exists st st',
    and_then (SmartSubscriber [0%nat; 1%nat] (world None two_publishers))
             (subscribe "/input" 5) = Ok (tt, st) /\
    in_step st /\ isSubscribed st = true /\
    removePublisher "/out" st = Ok (true, st') /\
    smart st' = true /\ any_subscribers st' = false /\
    isSubscribed st' = true /\ ~ in_step st'.
Proof.
  eexists. eexists.
  split; [vm_compute; reflexivity|].
  split; [vm_compute; reflexivity|].
  split; [vm_compute; reflexivity|].
  split; [vm_compute; reflexivity|].
  split; [vm_compute; reflexivity|].
  split; [vm_compute; reflexivity|].
  split; [vm_compute; reflexivity|].
  vm_compute. discriminate.
Qed.

(** C6. With a single tracked record, whose topic is the one asked for,
    [removePublisher] does not return [true]: after the erasure it enters
    [removeCallback], which takes [back()] of the now empty vector. *)
Theorem removePublisher_sole_record_undefined :
  exists st p,
    SmartSubscriber [0%nat] (world None two_publishers) = Ok st /\
    publisherInfo_ st = [p] /\
    getTopic p (publishers (ros st)) = "/out"%string /\
    removePublisher "/out" st = Fail UndefinedBehaviour.
Proof.
  eexists. eexists.
  split; [vm_compute; reflexivity|].
  split; [vm_compute; reflexivity|].
  split; vm_compute; reflexivity.
Qed.

(** C10. [removePublisher] reaches [removeCallback] with an empty vector when
    the erased record was the only one: the state handed to the helper has no
    record left, and its [back()] is undefined. *)
Theorem removeCallback_entered_with_empty_vector :
  exists st st_erased,
    SmartSubscriber [1%nat] (world None two_publishers) = Ok st /\
    length (publisherInfo_ st) = 1%nat /\
    st_erased = set_publisherInfo_ (delete 0%nat (publisherInfo_ st)) st /\
    removePublisher "/aux" st = (removeCallback "/aux" ;; ret true) st_erased /\
    publisherInfo_ st_erased = [] /\
    back st_erased = Fail UndefinedBehaviour /\
    removeCallback "/aux" st_erased = Fail UndefinedBehaviour.
Proof.
  eexists. eexists.
  split; [vm_compute; reflexivity|].
  split; [vm_compute; reflexivity|].
  split; [reflexivity|].
  split; [vm_compute; reflexivity|].
  split; [vm_compute; reflexivity|].
  split; vm_compute; reflexivity.
Qed.

(** ** Renaming topics *)

(** One iteration of the loop of [updateTopics] always returns: a record at
    position [i] makes the vector non-empty for both helpers. *)
Lemma updateTopic_runs (i : nat) (st : State) :
  exists st', updateTopic i st = Ok (tt, st') /\
    length (publisherInfo_ st') = length (publisherInfo_ st) /\
    count_getenv (trace st') = count_getenv (trace st).
Proof.
  unfold updateTopic, get, bind at 1.
  destruct (publisherInfo_ st !! i) as [p|] eqn:Hp; [|exists st; auto].
  destruct (negb (String.eqb (getTopic p (publishers (ros st))) (topic p)));
    [|exists st; auto].
  destruct (last (publisherInfo_ st)) as [q|] eqn:Hlast.
  2:{ apply last_None in Hlast. rewrite Hlast in Hp. discriminate. }
  destruct (addCallback_runs (getTopic p (publishers (ros st))) st q Hlast)
    as (st1 & Hadd & Hinfo1 & _ & _ & _ & _ & _ & rest1 & Htr1 & _ & Hge1).
  assert (Hlast1 : last (publisherInfo_ st1) = Some q) by now rewrite Hinfo1.
  destruct (removeCallback_runs (topic p) st1 q Hlast1)
    as (st2 & Hrm & Hinfo2 & _ & _ & _ & _ & _ & rest2 & Htr2 & _ & Hge2).
  eexists. split.
  - unfold bind. rewrite Hadd, Hrm. unfold modify. reflexivity.
  - simpl. rewrite length_insert, Hinfo2, Hinfo1. split; [reflexivity|].
    rewrite Htr2, Htr1, !count_getenv_app. simpl. rewrite Hge1, Hge2. lia.
Qed.

Lemma for_each_updateTopic_runs (l : list nat) (st : State) :
  exists st', for_each l updateTopic st = Ok (tt, st') /\
    length (publisherInfo_ st') = length (publisherInfo_ st) /\
    count_getenv (trace st') = count_getenv (trace st).
Proof.
  revert st. induction l as [|i l IH]; intros st; simpl.
  - exists st. auto.
  - destruct (updateTopic_runs i st) as (st1 & Hrun & Hlen & Hge).
    destruct (IH st1) as (st2 & Hrun2 & Hlen2 & Hge2).
    exists st2. unfold bind. rewrite Hrun. split; [exact Hrun2|].
    split; congruence.
Qed.

(** [updateTopics] never takes [back()] of an empty vector. *)
Lemma updateTopics_runs (st : State) :
  exists st', updateTopics st = Ok (tt, st') /\
    length (publisherInfo_ st') = length (publisherInfo_ st) /\
    count_getenv (trace st') = count_getenv (trace st).
Proof.
  unfold updateTopics, get, bind at 1. apply for_each_updateTopic_runs.
Qed.

(** ** Construction *)

Lemma for_each_addPublisher_runs (tracked : list PubId) (st : State) :
  exists st', for_each tracked addPublisher st = Ok (tt, st') /\
    smart st' = smart st /\ (in_step st -> in_step st') /\
    NO_SMART_SUBSCRIBE (ros st') = NO_SMART_SUBSCRIBE (ros st) /\
    count_getenv (trace st') = count_getenv (trace st) /\
    length (publisherInfo_ st') = (length (publisherInfo_ st) + length tracked)%nat.
Proof.
  revert st. induction tracked as [|p tracked IH]; intros st; simpl.
  - exists st. repeat split; auto.
  - destruct (addPublisher_in_step p st)
      as (st1 & Hrun & Hstep & Hsmart & Henv & Hge & q & Hinfo & _).
    destruct (IH st1) as (st2 & Hrun2 & Hsmart2 & Hstep2 & Henv2 & Hge2 & Hlen2).
    exists st2. unfold bind. rewrite Hrun. split; [exact Hrun2|].
    repeat split; try congruence; auto.
    rewrite Hlen2, Hinfo, length_app. simpl. lia.
Qed.

(** Every operation on a constructed subscriber leaves the environment
    variable alone. *)
Lemma run_op_no_getenv (op : Operation) (st st' : State) :
  run_op op st = Ok (tt, st') ->
  count_getenv (trace st') = count_getenv (trace st).
Proof.
  assert (Hcb : forall s s', subscribeCallback s = Ok (tt, s') ->
                             count_getenv (trace s') = count_getenv (trace s)).
  { intros s s' Hs. destruct (subscribeCallback_trace s) as (s1 & calls & Hrun & Htr & Hge & _).
    rewrite Hrun in Hs. injection Hs as <-.
    rewrite Htr, count_getenv_app, Hge. lia. }
  destruct op as [t q|p|t| |b| |p n]; simpl; intros Hrun.
  - unfold subscribe, Subscriber_subscribe_to, emit, modify, bind in Hrun.
    apply Hcb in Hrun. rewrite Hrun. simpl. rewrite count_getenv_app. simpl. lia.
  - destruct (addPublisher_in_step p st) as (st1 & Hrun1 & _ & _ & _ & Hge & _).
    rewrite Hrun1 in Hrun. now injection Hrun as <-.
  - unfold removePublisher, get, bind at 1 2 in Hrun.
    destruct (find_if _ (publisherInfo_ st)) as [i|] eqn:Hfind.
    + unfold modify, bind at 1 2 in Hrun.
      set (st0 := set_publisherInfo_ (delete i (publisherInfo_ st)) st) in *.
      destruct (last (publisherInfo_ st0)) as [q|] eqn:Hlast.
      * destruct (removeCallback_runs t st0 q Hlast)
          as (st1 & Hrm & _ & _ & _ & _ & _ & _ & rest & Htr & _ & Hge).
        unfold bind, ret in Hrun. rewrite Hrm in Hrun. injection Hrun as <-.
        rewrite Htr, count_getenv_app. simpl. rewrite Hge. simpl. lia.
      * apply last_None in Hlast.
        rewrite (removeCallback_empty t st0 Hlast) in Hrun. discriminate.
    + unfold ret, bind in Hrun. now injection Hrun as <-.
  - destruct (updateTopics_runs st) as (st1 & Hrun1 & _ & Hge).
    rewrite Hrun1 in Hrun. now injection Hrun as <-.
  - unfold setSmart, modify, bind in Hrun. now apply Hcb in Hrun.
  - now apply Hcb.
  - unfold deliver, modify, get, bind in Hrun.
    destruct (connect_ _); simpl in Hrun.
    + now apply Hcb in Hrun.
    + unfold ret in Hrun. now injection Hrun as <-.
Qed.

Lemma check_always_on_unset (w : Ros) :
  NO_SMART_SUBSCRIBE w = None ->
  check_always_on (fresh w) = Ok (tt, set_trace [EvGetenv] (fresh w)).
Proof.
  intros Henv. unfold check_always_on, getenv, emit, modify, gets, bind. simpl.
  now rewrite Henv.
Qed.

Lemma check_always_on_set (w : Ros) (value : string) :
  NO_SMART_SUBSCRIBE w = Some value ->
  check_always_on (fresh w) =
  match stoi value with
  | Parsed n => when (0 <? n) (setSmart false) (set_trace [EvGetenv] (fresh w))
  | invalid_argument => Ok (tt, set_trace [EvGetenv] (fresh w))
  | out_of_range => Fail Uncaught_out_of_range
  end.
Proof.
  intros Henv. unfold check_always_on, getenv, emit, modify, gets, bind. simpl.
  rewrite Henv. destruct (stoi value); reflexivity.
Qed.

(** The constructor from the state its [try] block leaves. *)
Lemma SmartSubscriber_after_check (tracked : list PubId) (w : Ros) (st0 : State) :
  check_always_on (fresh w) = Ok (tt, st0) ->
  in_step st0 -> count_getenv (trace st0) = 1%nat ->
  exists st, SmartSubscriber tracked w = Ok st /\ smart st = smart st0 /\
    in_step st /\ count_getenv (trace st) = 1%nat /\
    length (publisherInfo_ st) = (length (publisherInfo_ st0) + length tracked)%nat.
Proof.
  intros Hcheck Hstep Hge.
  destruct (for_each_addPublisher_runs tracked st0)
    as (st & Hrun & Hsmart & Hstep' & _ & Hge' & Hlen).
  exists st. unfold SmartSubscriber, exec, bind. rewrite Hcheck, Hrun.
  repeat split; auto. congruence.
Qed.

(** The value of the variable is malformed in the sense the code catches:
    construction goes through in smart mode. *)
Lemma SmartSubscriber_invalid_argument (tracked : list PubId) (w : Ros) (value : string) :
  NO_SMART_SUBSCRIBE w = Some value -> stoi value = invalid_argument ->
  exists st, SmartSubscriber tracked w = Ok st /\ smart st = true.
Proof.
  intros Henv Hstoi.
  pose proof (check_always_on_set w value Henv) as Hcheck. rewrite Hstoi in Hcheck.
  destruct (SmartSubscriber_after_check tracked w _ Hcheck) as (st & Hrun & Hsmart & _);
    [reflexivity | reflexivity |].
  exists st. auto.
Qed.

(** An out-of-range numeral leaves the constructor as an exception. *)
Lemma SmartSubscriber_out_of_range (tracked : list PubId) (w : Ros) (value : string) :
  NO_SMART_SUBSCRIBE w = Some value -> stoi value = out_of_range ->
  SmartSubscriber tracked w = Fail Uncaught_out_of_range.
Proof.
  intros Henv Hstoi. unfold SmartSubscriber, exec, bind.
  rewrite (check_always_on_set w value Henv), Hstoi. reflexivity.
Qed.

(** C4. The environment override.  If [NO_SMART_SUBSCRIBE] parses to an
    integer above zero, the constructed subscriber is not in smart mode and is
    subscribed, whatever the tracked publishers and their subscriber counts,
    and stays subscribed through any later status notification.  If the
    variable is unset or parses to an integer that is zero or below, the
    constructed subscriber is in smart mode.  The constructor reads the
    variable once, and no operation on the constructed subscriber reads it
    again. *)
Theorem NO_SMART_SUBSCRIBE_override (trackedPublishers : list PubId) (w : Ros) :
  (forall value n,
     NO_SMART_SUBSCRIBE w = Some value -> stoi value = Parsed n -> 0 < n ->
     exists st, SmartSubscriber trackedPublishers w = Ok st /\
       smart st = false /\ isSubscribed st = true /\
       count_getenv (trace st) = 1%nat /\
       forall p c, exists st', deliver p c st = Ok (tt, st') /\
                               smart st' = false /\ isSubscribed st' = true) /\
  (NO_SMART_SUBSCRIBE w = None \/
   (exists value n, NO_SMART_SUBSCRIBE w = Some value /\ stoi value = Parsed n /\ n <= 0) ->
     exists st, SmartSubscriber trackedPublishers w = Ok st /\
       smart st = true /\ count_getenv (trace st) = 1%nat) /\
  (forall op st st', run_op op st = Ok (tt, st') ->
     count_getenv (trace st') = count_getenv (trace st)).
Proof.
  split; [|split].
  - intros value n Henv Hstoi Hpos.
    pose proof (check_always_on_set w value Henv) as Hcheck. rewrite Hstoi in Hcheck.
    apply Z.ltb_lt in Hpos. rewrite Hpos in Hcheck. simpl in Hcheck.
    destruct (setSmart_in_step false (set_trace [EvGetenv] (fresh w)))
      as (st0 & Hset & Hstep0 & Hsmart0).
    rewrite Hset in Hcheck.
    assert (Hge0 : count_getenv (trace st0) = 1%nat).
    { now rewrite (run_op_no_getenv (OpSetSmart false) _ _ Hset). }
    destruct (SmartSubscriber_after_check trackedPublishers w st0 Hcheck Hstep0 Hge0)
      as (st & Hrun & Hsmart & Hstep & Hge & _).
    exists st. split; [exact Hrun|].
    assert (Hoff : smart st = false) by congruence.
    split; [exact Hoff|]. split; [|split; [exact Hge|]].
    + rewrite Hstep. unfold should_subscribe. now rewrite Hoff.
    + intros p c. unfold deliver, modify, get, bind. simpl.
      destruct (connect_ (callback_ st)); simpl.
      * match goal with |- context [subscribeCallback ?s] =>
          destruct (subscribeCallback_in_step s) as (st' & Hcb & Hsub & Hsm & _) end.
        exists st'. split; [exact Hcb|]. split; [now rewrite Hsm|].
        rewrite Hsub. unfold should_subscribe. simpl.
        unfold smart in Hoff. now rewrite Hoff.
      * eexists. split; [reflexivity|]. split; [exact Hoff|].
        change (isSubscribed st = true). rewrite Hstep.
        unfold should_subscribe. now rewrite Hoff.
  - intros Hcase.
    assert (Hcheck : check_always_on (fresh w) = Ok (tt, set_trace [EvGetenv] (fresh w))).
    { destruct Hcase as [Henv | (value & n & Henv & Hstoi & Hle)].
      - now apply check_always_on_unset.
      - rewrite (check_always_on_set w value Henv), Hstoi.
        apply Z.ltb_ge in Hle. now rewrite Hle. }
    destruct (SmartSubscriber_after_check trackedPublishers w _ Hcheck)
      as (st & Hrun & Hsmart & _ & Hge & _); [reflexivity | reflexivity |].
    exists st. auto.
  - intros op st st'. apply run_op_no_getenv.
Qed.

Lemma NO_SMART_SUBSCRIBE_override_witness :
  (exists st, SmartSubscriber [0%nat; 1%nat] (world (Some "1"%string) two_publishers) = Ok st /\
     smart st = false /\ isSubscribed st = true) /\
  (exists st, SmartSubscriber [0%nat; 1%nat] (world (Some "0"%string) two_publishers) = Ok st /\
     smart st = true) /\
  (exists st, SmartSubscriber [0%nat; 1%nat] (world None two_publishers) = Ok st /\
     smart st = true).
Proof.
  split; [|split].
  - destruct (NO_SMART_SUBSCRIBE_override [0%nat; 1%nat]
                (world (Some "1"%string) two_publishers)) as (Hon & _ & _).
    destruct (Hon "1"%string 1) as (st & Hrun & Hsmart & Hsub & _);
      [reflexivity | reflexivity | lia |].
    exists st. auto.
  - destruct (NO_SMART_SUBSCRIBE_override [0%nat; 1%nat]
                (world (Some "0"%string) two_publishers)) as (_ & Hoff & _).
    destruct Hoff as (st & Hrun & Hsmart & _).
    + right. exists "0"%string, 0. split; [reflexivity|]. split; [reflexivity | lia].
    + exists st. auto.
  - destruct (NO_SMART_SUBSCRIBE_override [0%nat; 1%nat]
                (world None two_publishers)) as (_ & Hoff & _).
    destruct Hoff as (st & Hrun & Hsmart & _).
    + left. reflexivity.
    + exists st. auto.
Defined.

(** C5. A numeral that does not fit an [int] is not ignored: [std::stoi]
    throws [std::out_of_range], the constructor catches only
    [std::invalid_argument], and the exception leaves the constructor,
    whatever the tracked publishers. *)
Theorem out_of_range_escapes_constructor (trackedPublishers : list PubId) (ps : Publishers) :
  stoi "99999999999" = out_of_range /\
  SmartSubscriber trackedPublishers (world (Some "99999999999"%string) ps) =
  Fail Uncaught_out_of_range.
Proof.
  split; [reflexivity|].
  now apply (SmartSubscriber_out_of_range _ _ "99999999999"%string).
Qed.

(** ** Which topic the helpers look up *)

Lemma looked_up_addCallback (topic' : string) (st : State) (p : PublisherInfo) :
  last (publisherInfo_ st) = Some p ->
  looked_up (addCallback topic') st = Some [topic p].
Proof.
  intros Hlast.
  destruct (addCallback_runs topic' st p Hlast)
    as (st' & Hrun & _ & _ & _ & _ & _ & _ & rest & Htr & Hlk & _).
  unfold looked_up, issued. rewrite Hrun, Htr, drop_app_length. simpl.
  now rewrite Hlk.
Qed.

Lemma looked_up_removeCallback (topic' : string) (st : State) (p : PublisherInfo) :
  last (publisherInfo_ st) = Some p ->
  looked_up (removeCallback topic') st = Some [topic p].
Proof.
  intros Hlast.
  destruct (removeCallback_runs topic' st p Hlast)
    as (st' & Hrun & _ & _ & _ & _ & _ & _ & rest & Htr & Hlk & _).
  unfold looked_up, issued. rewrite Hrun, Htr, drop_app_length. simpl.
  now rewrite Hlk.
Qed.

(** C7, as stated, fails.  Two tracked publishers on one topic: the helper
    called for the first record, as the destructor does, looks up the very
    topic it was given, and the first record is not the last. *)
Lemma same_topic_coincides_before_back :
  exists st,
    SmartSubscriber [0%nat; 1%nat] (world None same_topic_publishers) = Ok st /\
    ~ coincide_only_at_back st.
Proof.
  eexists. split; [vm_compute; reflexivity|].
  intros Hclaim.
  match type of Hclaim with
  | coincide_only_at_back ?s =>
      destruct (publisherInfo_ s !! 0%nat) as [p|] eqn:Hp; [|vm_compute in Hp; discriminate];
      specialize (Hclaim 0%nat p Hp)
  end.
  vm_compute in Hp. injection Hp as <-.
  assert (Hlen : 1%nat = 2%nat); [|discriminate].
  apply Hclaim. vm_compute. reflexivity.
Qed.

(** C7, amended. As long as a record is tracked, [addCallback] and
    [removeCallback] hand the registry the stored topic of the last record,
    whatever topic they are given.  Called with the stored topic of a tracked
    record, a helper looks that same topic up exactly when it equals the
    stored topic of the last record; if the stored topics are pairwise
    distinct, that is the case for the last record only. *)
Theorem callback_helpers_look_up_back (st : State) (topic' : string) (p : PublisherInfo) :
  last (publisherInfo_ st) = Some p ->
  looked_up (addCallback topic') st = Some [topic p] /\
  looked_up (removeCallback topic') st = Some [topic p] /\
  (forall i q, publisherInfo_ st !! i = Some q ->
     (looked_up (addCallback (topic q)) st = Some [topic q] <-> topic q = topic p) /\
     (looked_up (removeCallback (topic q)) st = Some [topic q] <-> topic q = topic p)) /\
  (NoDup (topic <$> publisherInfo_ st) ->
   forall i q, publisherInfo_ st !! i = Some q ->
     looked_up (removeCallback (topic q)) st = Some [topic q] ->
     S i = length (publisherInfo_ st)).
Proof.
  intros Hlast.
  split; [now apply looked_up_addCallback|].
  split; [now apply looked_up_removeCallback|].
  split.
  - intros i q _.
    rewrite (looked_up_addCallback (topic q) st p Hlast).
    rewrite (looked_up_removeCallback (topic q) st p Hlast).
    split; (split; [intros H; congruence | intros H; congruence]).
  - intros Hnodup i q Hq Hsame.
    rewrite (looked_up_removeCallback (topic q) st p Hlast) in Hsame.
    injection Hsame as Hsame.
    rewrite last_lookup in Hlast.
    assert (Hi : (topic <$> publisherInfo_ st) !! i = Some (topic q))
      by now rewrite list_lookup_fmap, Hq.
    assert (Hj : (topic <$> publisherInfo_ st) !! pred (length (publisherInfo_ st))
                 = Some (topic q))
      by (rewrite list_lookup_fmap, Hlast; simpl; congruence).
    pose proof (NoDup_lookup _ _ _ _ Hnodup Hi Hj) as Heq.
    apply lookup_lt_Some in Hq. lia.
Qed.

Lemma callback_helpers_look_up_back_witness :
  exists st p,
    SmartSubscriber [0%nat; 1%nat] (world None two_publishers) = Ok st /\
    last (publisherInfo_ st) = Some p /\
    looked_up (addCallback "/out") st = Some [topic p] /\
    looked_up (removeCallback "/out") st = Some [topic p] /\
    topic p = "/aux"%string /\
    2%nat = length (publisherInfo_ st).
Proof.
  eexists. eexists.
  split; [vm_compute; reflexivity|].
  split; [vm_compute; reflexivity|].
  match goal with
  | |- looked_up _ ?s = Some [topic ?q] /\ _ =>
      destruct (callback_helpers_look_up_back s "/out" q) as (Hadd & Hrm & _ & Hback);
        [vm_compute; reflexivity|];
      split; [exact Hadd|]; split; [exact Hrm|]; split; [reflexivity|];
      assert (Hnodup : NoDup (topic <$> publisherInfo_ s))
        by (apply (bool_decide_unpack _); vm_compute; exact I);
      apply (Hback Hnodup 1%nat q); vm_compute; reflexivity
  end.
Defined.

(** C8. [updateTopics] does not move the registration.  A subscriber tracks
    one publisher on ["/out"], where its callback is registered once; the
    publisher is moved to ["/new"], which the registry knows.  After
    [updateTopics] the stored name is ["/new"], but both lookups went to
    ["/out"]: nothing is registered under ["/new"] and the registration under
    ["/out"] is still there. *)
Theorem updateTopics_registration_stays_behind :
  exists st st',
    and_then (SmartSubscriber [0%nat] (world None two_publishers)) (reconfigure "/new")
      = Ok (tt, st) /\
    topic <$> publisherInfo_ st = ["/out"%string] /\
    (fun p => getTopic p (publishers (ros st))) <$> publisherInfo_ st = ["/new"%string] /\
    registered (ros st) "/out" = 1%nat /\
    registered (ros st) "/new" = 0%nat /\
    publications (ros st) !! "/new"%string = Some 0%nat /\
    updateTopics st = Ok (tt, st') /\
    topic <$> publisherInfo_ st' = ["/new"%string] /\
    looked_up updateTopics st = Some ["/out"%string; "/out"%string] /\
    registered (ros st') "/new" = 0%nat /\
    registered (ros st') "/out" = 1%nat.
Proof.
  eexists. eexists.
  split; [vm_compute; reflexivity|].
  split; [vm_compute; reflexivity|].
  split; [vm_compute; reflexivity|].
  split; [vm_compute; reflexivity|].
  split; [vm_compute; reflexivity|].
  split; [vm_compute; reflexivity|].
  split; [vm_compute; reflexivity|].
  split; [vm_compute; reflexivity|].
  split; [vm_compute; reflexivity|].
  split; vm_compute; reflexivity.
Qed.

(** ** Destruction *)

(** The loop of the destructor: while it runs the vector is the one it
    iterates over, so [back()] is defined in every iteration. *)
Lemma for_each_removeCallback_runs (l : list PublisherInfo) (st : State) :
  l = [] \/ publisherInfo_ st <> [] ->
  exists st', for_each l (fun pub => removeCallback (topic pub)) st = Ok (tt, st') /\
    publisherInfo_ st' = publisherInfo_ st /\ callback_ st' = callback_ st.
Proof.
  revert st. induction l as [|pub l IH]; intros st Hne; simpl.
  - exists st. auto.
  - destruct Hne as [Hnil | Hne]; [discriminate|].
    destruct (last (publisherInfo_ st)) as [q|] eqn:Hlast.
    2:{ apply last_None in Hlast. contradiction. }
    destruct (removeCallback_runs (topic pub) st q Hlast)
      as (st1 & Hrm & Hinfo1 & _ & _ & Hcb1 & _).
    destruct (IH st1) as (st2 & Hrun & Hinfo2 & Hcb2).
    { right. now rewrite Hinfo1. }
    exists st2. unfold bind. rewrite Hrm. split; [exact Hrun|].
    split; congruence.
Qed.

(** C9. The destructor always returns, and it leaves both hooks of the
    callback object as the empty lambda: run later by the framework, on
    whatever is left by then, either hook returns and changes nothing. *)
Theorem destructor_neutralises_hooks (st : State) :
  exists r,
    SmartSubscriber_dtor st = Ok r /\
    connect_ (r_callback r) = EmptyLambda /\
    disconnect_ (r_callback r) = EmptyLambda /\
    forall later : Remains,
      run_hook_after_dtor (connect_ (r_callback r)) later = Ok later /\
      run_hook_after_dtor (disconnect_ (r_callback r)) later = Ok later.
Proof.
  destruct (for_each_removeCallback_runs (publisherInfo_ st) st) as (st1 & Hloop & _).
  { destruct (publisherInfo_ st); [now left | now right]. }
  eexists. split.
  - unfold SmartSubscriber_dtor, exec, bind. rewrite Hloop. unfold modify. reflexivity.
  - simpl. repeat split.
Qed.

(** * Further properties of the class *)

(** ** Mode changes and subscription *)

(** X1. [setSmart] always returns.  It sets the mode flag, leaves the
    component subscribed exactly when the new mode is off or a tracked
    publication has a subscriber, touches neither the tracked records nor the
    surroundings, and issues one subscribe or unsubscribe call if the
    subscription state has to change and no call otherwise. *)
Theorem setSmart_sets_mode_and_reevaluates (smart' : bool) (st : State) :
  exists st',
    setSmart smart' st = Ok (tt, st') /\
    smart st' = smart' /\
    isSubscribed st' = negb smart' || any_subscribers st /\
    publisherInfo_ st' = publisherInfo_ st /\ ros st' = ros st /\
    issued (setSmart smart') st =
      Some (if Bool.eqb (isSubscribed st) (negb smart' || any_subscribers st) then []
            else [if negb smart' || any_subscribers st then EvSubscribe else EvUnsubscribe]).
Proof.
  unfold issued, setSmart, modify, bind.
  rewrite subscribeCallback_eq.
  change (should_subscribe (set_smart_ smart' st)) with (negb smart' || any_subscribers st).
  change (isSubscribed (set_smart_ smart' st)) with (isSubscribed st).
  destruct (Bool.eqb (isSubscribed st) (negb smart' || any_subscribers st)) eqn:E.
  - eexists. split; [reflexivity|]. simpl.
    apply Bool.eqb_prop in E. rewrite drop_all. auto.
  - eexists. split; [reflexivity|]. simpl. rewrite drop_app_length. auto.
Qed.

(** X2. [subscribe] always returns.  It hands the topic and the queue size to
    the base class and re-evaluates at once: the component ends subscribed
    exactly when smart mode is off or a tracked publication has a subscriber.
    The only call that can follow the base-class subscription is an
    unsubscribe; the argument-free [subscribe()] is never issued. *)
Theorem subscribe_then_reevaluates (topic' : string) (queue_size : N) (st : State) :
  exists st',
    subscribe topic' queue_size st = Ok (tt, st') /\
    isSubscribed st' = should_subscribe st /\
    smart st' = smart st /\ publisherInfo_ st' = publisherInfo_ st /\ ros st' = ros st /\
    issued (subscribe topic' queue_size) st =
      Some (EvBaseSubscribe topic' queue_size ::
            if should_subscribe st then [] else [EvUnsubscribe]).
Proof.
  unfold issued, subscribe, Subscriber_subscribe_to, emit, modify, bind.
  rewrite subscribeCallback_eq.
  set (st0 := set_sub_ true (set_trace (trace st ++ [EvBaseSubscribe topic' queue_size]) st)).
  change (should_subscribe st0) with (should_subscribe st).
  change (isSubscribed st0) with true.
  destruct (should_subscribe st) eqn:E; simpl.
  - eexists. split; [reflexivity|]. simpl. rewrite drop_app_length. auto.
  - eexists. split; [reflexivity|]. simpl.
    rewrite <- app_assoc, drop_app_length. auto.
Qed.

(** ** What the helpers do to the registry *)

Lemma addCallback_effect (topic' : string) (st : State) (p : PublisherInfo) :
  last (publisherInfo_ st) = Some p ->
  exists st', addCallback topic' st = Ok (tt, st') /\
    publisherInfo_ st' = publisherInfo_ st /\ sub_ st' = sub_ st /\
    smart_ st' = smart_ st /\ callback_ st' = callback_ st /\
    publishers (ros st') = publishers (ros st) /\
    NO_SMART_SUBSCRIBE (ros st') = NO_SMART_SUBSCRIBE (ros st) /\
    publications (ros st') = registry_after_add (topic p) (publications (ros st)) /\
    exists calls, trace st' = trace st ++ calls /\ lookups calls = [topic p] /\
                  existsb is_subscription_call calls = false.
Proof.
  intros Hlast. unfold addCallback, back, lookupPublication, addCallbacks.
  unfold_monad. rewrite Hlast. simpl. unfold registry_after_add, registered.
  destruct (publications (ros st) !! topic p) eqn:Hpub; simpl.
  - eexists. split; [reflexivity|]. simpl. rewrite Hpub. simpl.
    repeat (split; [reflexivity|]).
    exists [EvLookupPublication (topic p); EvAddCallbacks (topic p)].
    rewrite <- app_assoc. auto.
  - eexists. split; [reflexivity|]. simpl. repeat (split; [reflexivity|]).
    exists [EvLookupPublication (topic p)]. auto.
Qed.

Lemma removeCallback_effect (topic' : string) (st : State) (p : PublisherInfo) :
  last (publisherInfo_ st) = Some p ->
  exists st', removeCallback topic' st = Ok (tt, st') /\
    publisherInfo_ st' = publisherInfo_ st /\ sub_ st' = sub_ st /\
    smart_ st' = smart_ st /\ callback_ st' = callback_ st /\
    publishers (ros st') = publishers (ros st) /\
    NO_SMART_SUBSCRIBE (ros st') = NO_SMART_SUBSCRIBE (ros st) /\
    publications (ros st') = registry_after_remove (topic p) (publications (ros st)) /\
    exists calls, trace st' = trace st ++ calls /\ lookups calls = [topic p] /\
                  existsb is_subscription_call calls = false.
Proof.
  intros Hlast. unfold removeCallback, back, lookupPublication, removeCallbacks.
  unfold_monad. rewrite Hlast. simpl. unfold registry_after_remove, registered.
  destruct (publications (ros st) !! topic p) eqn:Hpub; simpl.
  - eexists. split; [reflexivity|]. simpl. rewrite Hpub. simpl.
    repeat (split; [reflexivity|]).
    exists [EvLookupPublication (topic p); EvRemoveCallbacks (topic p)].
    rewrite <- app_assoc. auto.
  - eexists. split; [reflexivity|]. simpl. repeat (split; [reflexivity|]).
    exists [EvLookupPublication (topic p)]. auto.
Qed.

(** Adding and then removing a registration under one topic leaves the
    registry as it was. *)
Lemma registry_add_remove (t : string) (m : gmap string nat) :
  registry_after_remove t (registry_after_add t m) = m.
Proof.
  unfold registry_after_add, registry_after_remove.
  destruct (m !! t) as [n|] eqn:Hm.
  - rewrite lookup_insert_eq. simpl. rewrite insert_insert_eq. now apply insert_id.
  - now rewrite Hm.
Qed.

Lemma issued_of_trace {A} (m : M A) (st st' : State) (a : A) (calls : list Event) :
  m st = Ok (a, st') -> trace st' = trace st ++ calls -> issued m st = Some calls.
Proof.
  intros Hrun Htr. unfold issued. now rewrite Hrun, Htr, drop_app_length.
Qed.

(** ** Adding a publisher *)

Lemma addPublisher_effect (publisher : PubId) (st : State) :
  exists st', addPublisher publisher st = Ok (tt, st') /\
    publisherInfo_ st' =
      publisherInfo_ st ++ [tracked_record (publishers (ros st)) publisher] /\
    smart_ st' = smart_ st /\ callback_ st' = callback_ st /\
    publishers (ros st') = publishers (ros st) /\
    publications (ros st') =
      registry_after_add (pub_getTopic (publishers (ros st) publisher))
                         (publications (ros st)) /\
    in_step st' /\
    exists calls, trace st' = trace st ++ calls /\
      lookups calls = [pub_getTopic (publishers (ros st) publisher)].
Proof.
  set (p0 := tracked_record (publishers (ros st)) publisher).
  set (st0 := set_publisherInfo_ (publisherInfo_ st ++ [p0]) st).
  assert (Hlast : last (publisherInfo_ st0) = Some p0) by apply last_snoc.
  destruct (addCallback_effect (topic p0) st0 p0 Hlast)
    as (st1 & Hadd & Hinfo1 & Hsub1 & Hsmart1 & Hcb1 & Hpubs1 & _ & Hreg1 & calls1 & Htr1 & Hlk1 & _).
  destruct (subscribeCallback_in_step st1)
    as (st2 & Hrun & Hsub2 & Hsmart2 & Hinfo2 & Hros2 & Hcb2).
  destruct (subscribeCallback_trace st1) as (st2' & calls2 & Hrun' & Htr2 & _ & Hlk2).
  rewrite Hrun in Hrun'. injection Hrun' as <-.
  exists st2. split.
  { unfold addPublisher, get, modify, bind at 1 2 3. simpl.
    fold (tracked_record (publishers (ros st)) publisher). fold p0. fold st0.
    unfold back. rewrite Hlast. unfold bind. rewrite Hadd. exact Hrun. }
  split; [now rewrite Hinfo2, Hinfo1|].
  split; [unfold smart in Hsmart2; now rewrite Hsmart2, Hsmart1|].
  split; [now rewrite Hcb2, Hcb1|].
  split; [now rewrite Hros2, Hpubs1|].
  split; [now rewrite Hros2, Hreg1|].
  split.
  { unfold in_step. rewrite Hsub2. symmetry.
    apply should_subscribe_ext; [exact Hsmart2 | exact Hinfo2 | now rewrite Hros2]. }
  exists (calls1 ++ calls2). split.
  - now rewrite Htr2, Htr1, app_assoc.
  - rewrite lookups_app, Hlk1, Hlk2. reflexivity.
Qed.

(** X3. [addPublisher] always returns and never takes [back()] of an empty
    vector.  It appends one record, for the publisher it was given, behind
    the records already tracked, with the publisher's current topic as the
    stored name; it looks that topic up and, if the registry knows it,
    registers the callback there once more, leaving the registry alone
    otherwise; and it leaves the subscription state in step with the
    aggregate predicate, now counting the new publisher. *)
Theorem addPublisher_appends_and_registers (publisher : PubId) (st : State) :
  exists st',
    addPublisher publisher st = Ok (tt, st') /\
    publisherInfo_ st' =
      publisherInfo_ st ++ [tracked_record (publishers (ros st)) publisher] /\
    looked_up (addPublisher publisher) st =
      Some [pub_getTopic (publishers (ros st) publisher)] /\
    publications (ros st') =
      registry_after_add (pub_getTopic (publishers (ros st) publisher))
                         (publications (ros st)) /\
    smart st' = smart st /\
    isSubscribed st' =
      negb (smart st) || any_subscribers st ||
      (0 <? pub_getNumSubscribers (publishers (ros st) publisher))%N.
Proof.
  destruct (addPublisher_effect publisher st)
    as (st' & Hrun & Hinfo & Hsmart & _ & Hpubs & Hreg & Hstep & calls & Htr & Hlk).
  exists st'. split; [exact Hrun|]. split; [exact Hinfo|].
  split; [unfold looked_up; rewrite (issued_of_trace _ _ _ _ _ Hrun Htr); simpl; now rewrite Hlk|].
  split; [exact Hreg|]. split; [exact Hsmart|].
  rewrite Hstep. unfold should_subscribe, any_subscribers, smart.
  rewrite Hsmart, Hinfo, Hpubs, existsb_app. simpl.
  now rewrite Bool.orb_false_r, Bool.orb_assoc.
Qed.

(** ** Removing a publisher: the defined cases *)

Lemma removePublisher_unfold (topic' : string) (st : State) :
  removePublisher topic' st =
  match find_if (matches topic' (publishers (ros st))) (publisherInfo_ st) with
  | None => Ok (false, st)
  | Some found =>
      match removeCallback topic'
              (set_publisherInfo_ (delete found (publisherInfo_ st)) st) with
      | Ok (_, st') => Ok (true, st')
      | Fail f => Fail f
      end
  end.
Proof.
  unfold removePublisher, get, bind at 1.
  change (fun pubInfo => String.eqb topic' (getTopic pubInfo (publishers (ros st))))
    with (matches topic' (publishers (ros st))).
  destruct (find_if _ (publisherInfo_ st)); [|reflexivity].
  unfold modify, bind, ret.
  destruct (removeCallback topic' _) as [[[] st']|f]; reflexivity.
Qed.

Lemma find_if_untracked (topic' : string) (ps : Publishers) (l : list PublisherInfo) :
  find_if (matches topic' ps) l = None <->
  forall p, p ∈ l -> getTopic p ps <> topic'.
Proof.
  rewrite find_if_None. unfold matches. split.
  - intros H p Hp Heq. specialize (H p Hp). apply String.eqb_neq in H. congruence.
  - intros H p Hp. apply String.eqb_neq. intros Heq. now apply (H p Hp).
Qed.

(** X4. [removePublisher] returns [false] exactly when no tracked record's
    publisher currently advertises the topic (the stored names play no part
    in the search), and then it has done nothing: the state is the one it was
    given, without any call issued. *)
Theorem removePublisher_false_iff_untracked (topic' : string) (st : State) :
  ((forall p, p ∈ publisherInfo_ st -> getTopic p (publishers (ros st)) <> topic') <->
   exists st', removePublisher topic' st = Ok (false, st')) /\
  (forall st', removePublisher topic' st = Ok (false, st') ->
     st' = st /\ issued (removePublisher topic') st = Some []).
Proof.
  rewrite removePublisher_unfold. split; [split|].
  - intros Hnone. apply find_if_untracked in Hnone. rewrite Hnone. now exists st.
  - intros (st' & Hrun). apply find_if_untracked.
    destruct (find_if _ (publisherInfo_ st)) as [i|]; [|reflexivity].
    destruct (removeCallback topic' _) as [[[] st1]|f]; discriminate.
  - intros st' Hrun. unfold issued. rewrite removePublisher_unfold.
    destruct (find_if _ (publisherInfo_ st)) as [i|].
    + destruct (removeCallback topic' _) as [[[] st1]|f]; discriminate.
    + injection Hrun as <-. now rewrite drop_all.
Qed.

(** X5. When the first record whose publisher advertises the topic is at
    position [found] and another record is left behind it or before it,
    [removePublisher] returns [true]; it erases that record and no other,
    keeps the order of the rest, hands the registry the stored topic of the
    record now last (not the topic it was asked to remove), and touches
    neither the mode flag nor the subscription state: no subscribe or
    unsubscribe call is issued. *)
Theorem removePublisher_erases_first_match
    (topic' : string) (st : State) (found : nat) (q : PublisherInfo) :
  find_if (matches topic' (publishers (ros st))) (publisherInfo_ st) = Some found ->
  last (delete found (publisherInfo_ st)) = Some q ->
  exists st' removed calls,
    removePublisher topic' st = Ok (true, st') /\
    publisherInfo_ st !! found = Some removed /\
    getTopic removed (publishers (ros st)) = topic' /\
    publisherInfo_ st' = delete found (publisherInfo_ st) /\
    isSubscribed st' = isSubscribed st /\ smart st' = smart st /\
    publishers (ros st') = publishers (ros st) /\
    publications (ros st') = registry_after_remove (topic q) (publications (ros st)) /\
    trace st' = trace st ++ calls /\
    lookups calls = [topic q] /\
    existsb is_subscription_call calls = false.
Proof.
  intros Hfind Hlast.
  destruct (find_if_Some _ _ _ Hfind) as (removed & Hrem & Hmatch & _).
  set (st0 := set_publisherInfo_ (delete found (publisherInfo_ st)) st).
  destruct (removeCallback_effect topic' st0 q Hlast)
    as (st' & Hrm & Hinfo & Hsub & Hsmart & _ & Hpubs & _ & Hreg & calls & Htr & Hlk & Hnosub).
  exists st', removed, calls.
  split; [rewrite removePublisher_unfold, Hfind; fold st0; now rewrite Hrm|].
  split; [exact Hrem|].
  split; [unfold matches in Hmatch; apply String.eqb_eq in Hmatch; congruence|].
  repeat (split; [assumption|]). exact Hnosub.
Qed.

Lemma removePublisher_erases_first_match_witness :
  exists st,
    SmartSubscriber [0%nat; 1%nat] (world None two_publishers) = Ok st /\
    exists st',
      removePublisher "/out" st = Ok (true, st') /\
      topic <$> publisherInfo_ st' = ["/aux"%string] /\
      isSubscribed st' = isSubscribed st.
Proof.
  eexists. split; [vm_compute; reflexivity|].
  match goal with
  | |- exists st', removePublisher _ ?s = _ /\ _ =>
      destruct (removePublisher_erases_first_match "/out" s 0%nat
                  (tracked_record two_publishers 1%nat))
        as (st' & removed & calls & Hrun & _ & _ & Hinfo & Hsub & _);
        [vm_compute; reflexivity | vm_compute; reflexivity |]
  end.
  exists st'. split; [exact Hrun|]. rewrite Hinfo. split; [|exact Hsub].
  vm_compute. reflexivity.
Defined.

(** ** Renaming topics: what [updateTopics] changes *)

Lemma Ros_ext (w w' : Ros) :
  NO_SMART_SUBSCRIBE w' = NO_SMART_SUBSCRIBE w ->
  publishers w' = publishers w ->
  publications w' = publications w ->
  w' = w.
Proof.
  destruct w, w'. simpl. intros -> -> ->. reflexivity.
Qed.

Lemma refresh_current (ps : Publishers) (p : PublisherInfo) :
  stale ps p = false -> refresh ps p = p.
Proof.
  unfold stale, refresh. intros H. apply Bool.negb_false_iff, String.eqb_eq in H.
  destruct p. simpl in *. now rewrite H.
Qed.

Lemma stale_refresh (ps : Publishers) (p : PublisherInfo) :
  stale ps (refresh ps p) = false.
Proof.
  unfold stale, refresh. simpl. now rewrite String.eqb_refl.
Qed.

Lemma updateTopic_effect (k : nat) (st : State) (p q : PublisherInfo) :
  publisherInfo_ st !! k = Some p ->
  last (publisherInfo_ st) = Some q ->
  exists st' calls, updateTopic k st = Ok (tt, st') /\
    publisherInfo_ st' = <[k := refresh (publishers (ros st)) p]> (publisherInfo_ st) /\
    sub_ st' = sub_ st /\ smart_ st' = smart_ st /\ callback_ st' = callback_ st /\
    ros st' = ros st /\
    trace st' = trace st ++ calls /\
    lookups calls = (if stale (publishers (ros st)) p then [topic q; topic q] else []) /\
    existsb is_subscription_call calls = false.
Proof.
  intros Hp Hlast. unfold updateTopic, get, bind at 1. rewrite Hp.
  change (negb (String.eqb (getTopic p (publishers (ros st))) (topic p)))
    with (stale (publishers (ros st)) p).
  destruct (stale (publishers (ros st)) p) eqn:Hstale.
  - destruct (addCallback_effect (getTopic p (publishers (ros st))) st q Hlast)
      as (st1 & Hadd & Hinfo1 & Hsub1 & Hsmart1 & Hcb1 & Hpubs1 & Henv1 & Hreg1
          & calls1 & Htr1 & Hlk1 & Hns1).
    assert (Hlast1 : last (publisherInfo_ st1) = Some q) by now rewrite Hinfo1.
    destruct (removeCallback_effect (topic p) st1 q Hlast1)
      as (st2 & Hrm & Hinfo2 & Hsub2 & Hsmart2 & Hcb2 & Hpubs2 & Henv2 & Hreg2
          & calls2 & Htr2 & Hlk2 & Hns2).
    eexists. exists (calls1 ++ calls2). split.
    { unfold bind. rewrite Hadd, Hrm. unfold modify. reflexivity. }
    simpl. split; [unfold refresh; now rewrite Hinfo2, Hinfo1|].
    split; [congruence|]. split; [congruence|]. split; [congruence|].
    split.
    { apply Ros_ext; [congruence | congruence |].
      rewrite Hreg2, Hreg1. apply registry_add_remove. }
    split; [now rewrite Htr2, Htr1, app_assoc|].
    split; [now rewrite lookups_app, Hlk1, Hlk2|].
    now rewrite existsb_app, Hns1, Hns2.
  - exists st, []. split; [reflexivity|].
    rewrite (refresh_current _ _ Hstale), list_insert_id by exact Hp.
    rewrite app_nil_r. auto 10.
Qed.

Lemma updateTopic_out_of_range (k : nat) (st : State) :
  publisherInfo_ st !! k = None -> updateTopic k st = Ok (tt, st).
Proof.
  intros Hp. unfold updateTopic, get, bind. now rewrite Hp.
Qed.

Lemma count_stale_cons (ps : Publishers) (p : PublisherInfo) (l : list PublisherInfo) :
  count_stale ps (p :: l) = ((if stale ps p then 1 else 0) + count_stale ps l)%nat.
Proof.
  unfold count_stale. simpl. destruct (stale ps p); reflexivity.
Qed.

(** The loop of [updateTopics] over the positions [k], ..., [k + n - 1]. *)
Lemma updateTopics_loop (n k : nat) (st : State) :
  exists st' calls, for_each (seq k n) updateTopic st = Ok (tt, st') /\
    sub_ st' = sub_ st /\ smart_ st' = smart_ st /\ callback_ st' = callback_ st /\
    ros st' = ros st /\
    length (publisherInfo_ st') = length (publisherInfo_ st) /\
    (forall j, publisherInfo_ st' !! j =
               if ((k <=? j) && (j <? k + n))%nat
               then refresh (publishers (ros st)) <$> (publisherInfo_ st !! j)
               else publisherInfo_ st !! j) /\
    trace st' = trace st ++ calls /\
    lookups calls =
      replicate (2 * count_stale (publishers (ros st)) (take n (drop k (publisherInfo_ st))))
                (back_topic st) /\
    existsb is_subscription_call calls = false.
Proof.
  revert k st. induction n as [|n IH]; intros k st.
  - exists st, []. simpl. rewrite app_nil_r. repeat (split; [reflexivity|]).
    split; [|auto]. intros j.
    destruct (Nat.leb_spec k j), (Nat.ltb_spec j (k + 0)); simpl; try reflexivity; lia.
  - simpl. destruct (publisherInfo_ st !! k) as [p|] eqn:Hp.
    + destruct (last (publisherInfo_ st)) as [q|] eqn:Hlast.
      2:{ apply last_None in Hlast. rewrite Hlast in Hp. discriminate. }
      destruct (updateTopic_effect k st p q Hp Hlast)
        as (st1 & calls1 & Hrun1 & Hinfo1 & Hsub1 & Hsmart1 & Hcb1 & Hros1 & Htr1 & Hlk1 & Hns1).
      destruct (IH (S k) st1)
        as (st2 & calls2 & Hrun2 & Hsub2 & Hsmart2 & Hcb2 & Hros2 & Hlen2 & Hat2 & Htr2 & Hlk2 & Hns2).
      exists st2, (calls1 ++ calls2). unfold bind. rewrite Hrun1.
      split; [exact Hrun2|].
      split; [congruence|]. split; [congruence|]. split; [congruence|].
      split; [congruence|].
      split; [now rewrite Hlen2, Hinfo1, length_insert|].
      split.
      { intros j. rewrite Hat2, Hros1, Hinfo1.
        destruct (decide (j = k)) as [->|Hne].
        - rewrite list_lookup_insert_eq by (apply lookup_lt_Some in Hp; exact Hp).
          rewrite Hp.
          destruct (Nat.leb_spec (S k) k); [lia|]. simpl.
          destruct (Nat.leb_spec k k); [|lia].
          destruct (Nat.ltb_spec k (k + S n)); [|lia]. reflexivity.
        - rewrite list_lookup_insert_ne by congruence.
          destruct (Nat.leb_spec (S k) j), (Nat.ltb_spec j (S k + n)),
            (Nat.leb_spec k j), (Nat.ltb_spec j (k + S n)); simpl; try reflexivity; lia. }
      split; [now rewrite Htr2, Htr1, app_assoc|].
      split; [|now rewrite existsb_app, Hns1, Hns2].
      rewrite lookups_app, Hlk1, Hlk2, Hros1, Hinfo1.
      rewrite drop_insert_lt by lia.
      rewrite (drop_S _ _ _ Hp). simpl take. rewrite count_stale_cons.
      assert (Hback : back_topic st = topic q) by (unfold back_topic; now rewrite Hlast).
      rewrite Hback.
      destruct (drop (S k) (publisherInfo_ st)) as [|r rest] eqn:Hdrop.
      * rewrite take_nil. change (count_stale (publishers (ros st)) []) with 0%nat.
        destruct (stale _ p); reflexivity.
      * assert (Hlt : (S k < length (publisherInfo_ st))%nat).
        { destruct (Nat.lt_ge_cases (S k) (length (publisherInfo_ st))) as [Hlt|Hge]; [exact Hlt|].
          rewrite drop_ge in Hdrop by exact Hge. discriminate. }
        assert (Hback1 : back_topic st1 = topic q).
        { unfold back_topic. rewrite Hinfo1, last_lookup, length_insert.
          rewrite list_lookup_insert_ne by lia.
          rewrite <- last_lookup, Hlast. reflexivity. }
        rewrite Hback1.
        set (c := count_stale (publishers (ros st)) (take n (r :: rest))).
        destruct (stale _ p); [|reflexivity].
        change ([topic q; topic q] ++ replicate (2 * c) (topic q))
          with (replicate (S (S (2 * c))) (topic q)).
        f_equal. lia.
    + unfold bind. rewrite (updateTopic_out_of_range k st Hp).
      destruct (IH (S k) st)
        as (st2 & calls2 & Hrun2 & Hsub2 & Hsmart2 & Hcb2 & Hros2 & Hlen2 & Hat2 & Htr2 & Hlk2 & Hns2).
      exists st2, calls2. split; [exact Hrun2|].
      repeat (split; [assumption|]).
      split.
      { intros j. rewrite Hat2.
        destruct (decide (j = k)) as [->|Hne].
        - rewrite Hp. destruct ((S k <=? k)%nat && (k <? S k + n)%nat),
            ((k <=? k)%nat && (k <? k + S n)%nat); reflexivity.
        - destruct (Nat.leb_spec (S k) j), (Nat.ltb_spec j (S k + n)),
            (Nat.leb_spec k j), (Nat.ltb_spec j (k + S n)); simpl; try reflexivity; lia. }
      split; [exact Htr2|]. split; [|exact Hns2].
      rewrite Hlk2. apply lookup_ge_None in Hp.
      rewrite !drop_ge by lia. rewrite !take_nil. reflexivity.
Qed.

Lemma updateTopics_effect (st : State) :
  exists st' calls, updateTopics st = Ok (tt, st') /\
    sub_ st' = sub_ st /\ smart_ st' = smart_ st /\ callback_ st' = callback_ st /\
    ros st' = ros st /\
    publisherInfo_ st' = refresh (publishers (ros st)) <$> publisherInfo_ st /\
    trace st' = trace st ++ calls /\
    lookups calls =
      replicate (2 * count_stale (publishers (ros st)) (publisherInfo_ st)) (back_topic st) /\
    existsb is_subscription_call calls = false.
Proof.
  destruct (updateTopics_loop (length (publisherInfo_ st)) 0 st)
    as (st' & calls & Hrun & Hsub & Hsmart & Hcb & Hros & Hlen & Hat & Htr & Hlk & Hns).
  exists st', calls. split; [unfold updateTopics, get, bind at 1; exact Hrun|].
  repeat (split; [assumption|]).
  split; [|split; [exact Htr|split; [|exact Hns]]].
  - apply list_eq. intros j. rewrite Hat, list_lookup_fmap. simpl.
    destruct (Nat.ltb_spec j (length (publisherInfo_ st))) as [Hlt|Hge]; [reflexivity|].
    now rewrite (lookup_ge_None_2 _ _ Hge).
  - rewrite Hlk. simpl drop. now rewrite firstn_all.
Qed.

Lemma updateTopics_loop_current (l : list nat) (st : State) :
  (forall p, p ∈ publisherInfo_ st -> stale (publishers (ros st)) p = false) ->
  for_each l updateTopic st = Ok (tt, st).
Proof.
  intros Hcurrent. induction l as [|k l IH]; simpl; [reflexivity|].
  unfold bind.
  assert (Hk : updateTopic k st = Ok (tt, st)).
  { unfold updateTopic, get, bind.
    destruct (publisherInfo_ st !! k) as [p|] eqn:Hp; [|reflexivity].
    change (negb (String.eqb (getTopic p (publishers (ros st))) (topic p)))
      with (stale (publishers (ros st)) p).
    rewrite (Hcurrent p); [reflexivity|]. apply list_elem_of_lookup. eauto. }
  now rewrite Hk.
Qed.

(** X6. [updateTopics] always returns.  Afterwards every record stores the
    topic its publisher currently advertises; the records are the same ones,
    in the same order, with the same closures.  Neither the mode flag, nor
    the subscription state, nor the callback object is touched, and no
    subscribe or unsubscribe call is issued. *)
Theorem updateTopics_synchronises_names (st : State) :
  exists st',
    updateTopics st = Ok (tt, st') /\
    publisherInfo_ st' = refresh (publishers (ros st)) <$> publisherInfo_ st /\
    Forall (fun p => topic p = getTopic p (publishers (ros st'))) (publisherInfo_ st') /\
    getNumSubscriber <$> publisherInfo_ st' = getNumSubscriber <$> publisherInfo_ st /\
    getTopic <$> publisherInfo_ st' = getTopic <$> publisherInfo_ st /\
    isSubscribed st' = isSubscribed st /\ smart st' = smart st /\
    callback st' = callback st /\
    exists calls, issued updateTopics st = Some calls /\
                  existsb is_subscription_call calls = false.
Proof.
  destruct (updateTopics_effect st)
    as (st' & calls & Hrun & Hsub & Hsmart & Hcb & Hros & Hinfo & Htr & _ & Hns).
  exists st'. split; [exact Hrun|]. split; [exact Hinfo|].
  split.
  { rewrite Hinfo, Hros. apply Forall_fmap, Forall_forall. intros p _. reflexivity. }
  split; [rewrite Hinfo, <- list_fmap_compose; reflexivity|].
  split; [rewrite Hinfo, <- list_fmap_compose; reflexivity|].
  repeat (split; [assumption|]).
  exists calls. split; [exact (issued_of_trace _ _ _ _ _ Hrun Htr) | exact Hns].
Qed.

(** X7. [updateTopics] leaves the registry exactly as it found it.  Each
    record with an outdated name costs two lookups, and every one of them is
    made with the name that the last record stored when the call began:
    neither the new names nor the outdated names of the other records are
    ever looked up. *)
Theorem updateTopics_leaves_registry (st : State) :
  exists st',
    updateTopics st = Ok (tt, st') /\
    publications (ros st') = publications (ros st) /\
    ros st' = ros st /\
    looked_up updateTopics st =
      Some (replicate (2 * count_stale (publishers (ros st)) (publisherInfo_ st))
                      (back_topic st)).
Proof.
  destruct (updateTopics_effect st)
    as (st' & calls & Hrun & _ & _ & _ & Hros & _ & Htr & Hlk & _).
  exists st'. split; [exact Hrun|]. split; [now rewrite Hros|]. split; [exact Hros|].
  unfold looked_up. rewrite (issued_of_trace _ _ _ _ _ Hrun Htr). simpl. now rewrite Hlk.
Qed.

(** X8. [updateTopics] is idempotent: run again on the state it left, it
    changes nothing and issues no call.  More generally it does nothing at
    all on a subscriber whose stored names are all up to date. *)
Theorem updateTopics_idempotent (st : State) :
  (exists st', updateTopics st = Ok (tt, st') /\
               updateTopics st' = Ok (tt, st') /\
               issued updateTopics st' = Some []) /\
  ((forall p, p ∈ publisherInfo_ st -> topic p = getTopic p (publishers (ros st))) ->
   updateTopics st = Ok (tt, st)).
Proof.
  assert (Hnoop : forall s,
            (forall p, p ∈ publisherInfo_ s -> stale (publishers (ros s)) p = false) ->
            updateTopics s = Ok (tt, s)).
  { intros s Hs. unfold updateTopics, get, bind at 1. now apply updateTopics_loop_current. }
  split.
  - destruct (updateTopics_effect st)
      as (st' & calls & Hrun & _ & _ & _ & Hros & Hinfo & _).
    assert (Hagain : updateTopics st' = Ok (tt, st')).
    { apply Hnoop. intros p Hp. rewrite Hinfo in Hp. rewrite Hros.
      apply list_elem_of_fmap in Hp as (p0 & -> & _). apply stale_refresh. }
    exists st'. split; [exact Hrun|]. split; [exact Hagain|].
    unfold issued. rewrite Hagain. now rewrite drop_all.
  - intros Hcurrent. apply Hnoop. intros p Hp. unfold stale.
    rewrite <- (Hcurrent p Hp). now rewrite String.eqb_refl.
Qed.

(** ** Destruction: what happens to the registrations *)

Lemma registry_after_remove_other (t t' : string) (m : gmap string nat) :
  t' <> t -> registry_after_remove t m !! t' = m !! t'.
Proof.
  intros Hne. unfold registry_after_remove.
  destruct (m !! t); [|reflexivity]. now rewrite lookup_insert_ne.
Qed.

Lemma registry_after_remove_same (t : string) (m : gmap string nat) :
  default 0%nat (registry_after_remove t m !! t) = Nat.pred (default 0%nat (m !! t)).
Proof.
  unfold registry_after_remove.
  destruct (m !! t) as [n|] eqn:Hm.
  - now rewrite lookup_insert_eq.
  - now rewrite Hm.
Qed.

Lemma registry_after_add_other (t t' : string) (m : gmap string nat) :
  t' <> t -> registry_after_add t m !! t' = m !! t'.
Proof.
  intros Hne. unfold registry_after_add.
  destruct (m !! t); [|reflexivity]. now rewrite lookup_insert_ne.
Qed.

Lemma iter_remove_other (n : nat) (t t' : string) (m : gmap string nat) :
  t' <> t -> Nat.iter n (registry_after_remove t) m !! t' = m !! t'.
Proof.
  intros Hne. induction n as [|n IH]; simpl; [reflexivity|].
  now rewrite registry_after_remove_other.
Qed.

Lemma iter_remove_same (n : nat) (t : string) (m : gmap string nat) :
  default 0%nat (Nat.iter n (registry_after_remove t) m !! t) =
  (default 0%nat (m !! t) - n)%nat.
Proof.
  induction n as [|n IH]; simpl; [lia|].
  rewrite registry_after_remove_same, IH. lia.
Qed.

Lemma dtor_loop (l : list PublisherInfo) (st : State) (q : PublisherInfo) :
  last (publisherInfo_ st) = Some q ->
  exists st' calls,
    for_each l (fun pub => removeCallback (topic pub)) st = Ok (tt, st') /\
    publisherInfo_ st' = publisherInfo_ st /\ callback_ st' = callback_ st /\
    publishers (ros st') = publishers (ros st) /\
    NO_SMART_SUBSCRIBE (ros st') = NO_SMART_SUBSCRIBE (ros st) /\
    publications (ros st') =
      Nat.iter (length l) (registry_after_remove (topic q)) (publications (ros st)) /\
    trace st' = trace st ++ calls /\
    lookups calls = replicate (length l) (topic q).
Proof.
  revert st. induction l as [|pub l IH]; intros st Hlast; simpl.
  - exists st, []. rewrite app_nil_r. auto 10.
  - destruct (removeCallback_effect (topic pub) st q Hlast)
      as (st1 & Hrm & Hinfo1 & _ & _ & Hcb1 & Hpubs1 & Henv1 & Hreg1 & calls1 & Htr1 & Hlk1 & _).
    assert (Hlast1 : last (publisherInfo_ st1) = Some q) by now rewrite Hinfo1.
    destruct (IH st1 Hlast1)
      as (st2 & calls2 & Hrun & Hinfo2 & Hcb2 & Hpubs2 & Henv2 & Hreg2 & Htr2 & Hlk2).
    exists st2, (calls1 ++ calls2). unfold bind. rewrite Hrm.
    split; [exact Hrun|].
    split; [congruence|]. split; [congruence|]. split; [congruence|].
    split; [congruence|].
    split; [now rewrite Hreg2, Hreg1, <- Nat.iter_succ_r|].
    split; [now rewrite Htr2, Htr1, app_assoc|].
    now rewrite lookups_app, Hlk1, Hlk2.
Qed.

(** X9. The destructor makes one registry lookup per tracked record, each of
    them with the stored topic of the last record.  The callback therefore
    loses up to as many registrations under that one topic as there are
    tracked records, and keeps every registration it has under any other
    topic; the publishers are not touched, and with nothing tracked neither
    are the surroundings or the trace. *)
Theorem destructor_deregisters_from_back_only (st : State) :
  exists r,
    SmartSubscriber_dtor st = Ok r /\
    publishers (r_ros r) = publishers (ros st) /\
    lookups (drop (length (trace st)) (r_trace r)) =
      replicate (length (publisherInfo_ st)) (back_topic st) /\
    (forall t, t <> back_topic st ->
       publications (r_ros r) !! t = publications (ros st) !! t) /\
    registered (r_ros r) (back_topic st) =
      (registered (ros st) (back_topic st) - length (publisherInfo_ st))%nat /\
    (publisherInfo_ st = [] -> r_ros r = ros st /\ r_trace r = trace st).
Proof.
  destruct (last (publisherInfo_ st)) as [q|] eqn:Hlast.
  - destruct (dtor_loop (publisherInfo_ st) st q Hlast)
      as (st1 & calls & Hloop & Hinfo & Hcb & Hpubs & Henv & Hreg & Htr & Hlk).
    assert (Hback : back_topic st = topic q) by (unfold back_topic; now rewrite Hlast).
    eexists. split.
    { unfold SmartSubscriber_dtor, exec, bind. rewrite Hloop. unfold modify. reflexivity. }
    simpl. rewrite Hback. split; [exact Hpubs|].
    split; [now rewrite Htr, drop_app_length|].
    split; [intros t Hne; rewrite Hreg; now apply iter_remove_other|].
    split; [unfold registered; rewrite Hreg; apply iter_remove_same|].
    intros Hnil. rewrite Hnil in Hlast. discriminate.
  - apply last_None in Hlast.
    eexists. split.
    { unfold SmartSubscriber_dtor, exec, bind. rewrite Hlast. simpl.
      unfold modify. reflexivity. }
    simpl. rewrite Hlast, drop_all. simpl. rewrite Nat.sub_0_r.
    split; [reflexivity|]. split; [reflexivity|].
    split; [intros t _; reflexivity|]. split; [reflexivity|].
    intros _. split; reflexivity.
Qed.

(** ** Operations on a constructed subscriber *)

Lemma subscribeCallback_effect (st : State) :
  exists st', subscribeCallback st = Ok (tt, st') /\ in_step st' /\
    smart_ st' = smart_ st /\ publisherInfo_ st' = publisherInfo_ st /\
    ros st' = ros st /\ callback_ st' = callback_ st.
Proof.
  destruct (subscribeCallback_in_step st) as (st' & Hrun & Hsub & Hsmart & Hinfo & Hros & Hcb).
  exists st'. split; [exact Hrun|]. split; [|auto].
  unfold in_step. rewrite Hsub. symmetry.
  apply should_subscribe_ext; [exact Hsmart | exact Hinfo | now rewrite Hros].
Qed.

Lemma existsb_fmap {A B} (f : B -> bool) (g : A -> B) (l : list A) :
  existsb f (g <$> l) = existsb (fun x => f (g x)) l.
Proof.
  induction l as [|x l IH]; [reflexivity|].
  rewrite fmap_cons. simpl. now rewrite IH.
Qed.

(** What each operation other than a removal does to the fields the
    aggregate predicate does not read. *)
Lemma run_op_frame (op : Operation) (st : State) :
  is_removal op = false ->
  exists st', run_op op st = Ok (tt, st') /\
    callback_ st' = callback_ st /\
    NO_SMART_SUBSCRIBE (ros st') = NO_SMART_SUBSCRIBE (ros st) /\
    (smart_ st' = smart_ st \/ exists b, op = OpSetSmart b) /\
    (publishers (ros st') = publishers (ros st) \/ exists p n, op = OpDeliver p n) /\
    (in_step st -> connect_ (callback_ st) = BoundSubscribeCallback -> in_step st').
Proof.
  destruct op as [t q|p|t| |b| |p n]; simpl; intros Hrem; try discriminate.
  - unfold subscribe, Subscriber_subscribe_to, emit, modify, bind.
    match goal with |- context [subscribeCallback ?s] =>
      destruct (subscribeCallback_effect s) as (st' & Hrun & Hstep & Hsmart & _ & Hros & Hcb) end.
    exists st'. split; [exact Hrun|]. rewrite Hcb, Hros, Hsmart. simpl. auto 10.
  - destruct (addPublisher_effect p st)
      as (st' & Hrun & _ & Hsmart & Hcb & Hpubs & _ & Hstep & _).
    destruct (addPublisher_in_step p st) as (st'' & Hrun' & _ & _ & Henv & _).
    rewrite Hrun in Hrun'. injection Hrun' as <-.
    exists st'. auto 10.
  - destruct (updateTopics_effect st)
      as (st' & calls & Hrun & Hsub & Hsmart & Hcb & Hros & Hinfo & _).
    exists st'. split; [exact Hrun|]. split; [exact Hcb|].
    split; [now rewrite Hros|]. split; [now left|].
    split; [left; now rewrite Hros|].
    intros Hstep _. unfold in_step, isSubscribed, should_subscribe, any_subscribers, smart in *.
    rewrite Hsub, Hsmart, Hros, Hinfo, existsb_fmap. exact Hstep.
  - unfold setSmart, modify, bind.
    destruct (subscribeCallback_effect (set_smart_ b st))
      as (st' & Hrun & Hstep & _ & _ & Hros & Hcb).
    exists st'. split; [exact Hrun|]. rewrite Hcb, Hros. simpl. eauto 10.
  - destruct (subscribeCallback_effect st) as (st' & Hrun & Hstep & Hsmart & _ & Hros & Hcb).
    exists st'. split; [exact Hrun|]. rewrite Hcb, Hros. auto 10.
  - unfold deliver, modify, get, bind. simpl.
    destruct (connect_ (callback_ st)) eqn:Hhook; simpl.
    + match goal with |- context [subscribeCallback ?s] =>
        destruct (subscribeCallback_effect s) as (st' & Hrun & Hstep & Hsmart & _ & Hros & Hcb) end.
      exists st'. split; [exact Hrun|]. rewrite Hcb, Hros, Hsmart. simpl. eauto 10.
    + eexists. split; [reflexivity|]. simpl.
      split; [reflexivity|]. split; [reflexivity|]. split; [now left|].
      split; [right; eauto|]. intros _ Hbound. discriminate.
Qed.

Lemma delete_leaves_nothing {A} (l : list A) (i : nat) (x : A) :
  l !! i = Some x -> delete i l = [] -> l = [x].
Proof.
  destruct l as [|a [|b l]], i as [|i]; simpl; intros Hx Hnil;
    try discriminate; congruence.
Qed.

(** X10. The only way an operation on a constructed subscriber can go wrong
    is [removePublisher] asked for the topic of the single tracked record.
    Every other call, and every call of [removePublisher] that leaves a
    record behind or finds nothing, returns; and when the failing case
    arises it is undefined behaviour, never an exception. *)
Theorem operations_fail_only_on_last_removal (op : Operation) (st : State) :
  ((exists f, run_op op st = Fail f) <->
   exists topic' p, op = OpRemovePublisher topic' /\ publisherInfo_ st = [p] /\
                    getTopic p (publishers (ros st)) = topic') /\
  (forall f, run_op op st = Fail f -> f = UndefinedBehaviour).
Proof.
  assert (Hrm : forall t,
            run_op (OpRemovePublisher t) st =
            match find_if (matches t (publishers (ros st))) (publisherInfo_ st) with
            | None => Ok (tt, st)
            | Some found =>
                match removeCallback t
                        (set_publisherInfo_ (delete found (publisherInfo_ st)) st) with
                | Ok (_, st') => Ok (tt, st')
                | Fail f => Fail f
                end
            end).
  { intros t. simpl. unfold bind, ret. rewrite removePublisher_unfold.
    destruct (find_if _ (publisherInfo_ st)); [|reflexivity].
    destruct (removeCallback t _) as [[[] s]|f]; reflexivity. }
  assert (Hcases : forall f, run_op op st = Fail f ->
            f = UndefinedBehaviour /\
            exists topic' p, op = OpRemovePublisher topic' /\ publisherInfo_ st = [p] /\
                             getTopic p (publishers (ros st)) = topic').
  { intros f Hfail. destruct (is_removal op) eqn:Hrem.
    - destruct op; try discriminate. rewrite Hrm in Hfail.
      destruct (find_if _ (publisherInfo_ st)) as [i|] eqn:Hfind; [|discriminate].
      destruct (find_if_Some _ _ _ Hfind) as (p & Hp & Hmatch & _).
      set (st0 := set_publisherInfo_ (delete i (publisherInfo_ st)) st) in *.
      destruct (last (publisherInfo_ st0)) as [q|] eqn:Hlast.
      + destruct (removeCallback_runs topic' st0 q Hlast) as (st1 & Hrun & _).
        rewrite Hrun in Hfail. discriminate.
      + apply last_None in Hlast.
        rewrite (removeCallback_empty topic' st0 Hlast) in Hfail.
        injection Hfail as <-. split; [reflexivity|].
        exists topic', p. split; [reflexivity|].
        split; [exact (delete_leaves_nothing _ _ _ Hp Hlast)|].
        unfold matches in Hmatch. apply String.eqb_eq in Hmatch. congruence.
    - destruct (run_op_frame op st Hrem) as (st' & Hrun & _).
      rewrite Hrun in Hfail. discriminate. }
  split; [split|].
  - intros (f & Hfail). now destruct (Hcases f Hfail).
  - intros (t & p & -> & Hinfo & Htopic). exists UndefinedBehaviour.
    rewrite Hrm, Hinfo. simpl. unfold matches. rewrite Htopic, String.eqb_refl.
    now rewrite removeCallback_empty.
  - intros f Hfail. now destruct (Hcases f Hfail).
Qed.

(** ** Construction, in full *)

Lemma check_always_on_result (w : Ros) :
  (exists value, NO_SMART_SUBSCRIBE w = Some value /\ stoi value = out_of_range /\
                 check_always_on (fresh w) = Fail Uncaught_out_of_range) \/
  (exists st0, check_always_on (fresh w) = Ok (tt, st0) /\
     in_step st0 /\ callback_ st0 = bound_callbacks /\ publisherInfo_ st0 = [] /\
     ros st0 = w /\ smart st0 = negb (always_on w) /\
     isSubscribed st0 = always_on w /\ lookups (trace st0) = []).
Proof.
  unfold always_on.
  destruct (NO_SMART_SUBSCRIBE w) as [value|] eqn:Henv.
  - rewrite (check_always_on_set w value Henv).
    destruct (stoi value) as [n| |] eqn:Hstoi.
    + right. destruct (0 <? n); simpl.
      * unfold setSmart, modify, bind. rewrite subscribeCallback_eq.
        eexists. split; [reflexivity|]. cbv - [stoi]. destruct w. auto 10.
      * eexists. split; [reflexivity|]. cbv - [stoi]. destruct w. auto 10.
    + right. eexists. split; [reflexivity|]. cbv - [stoi]. destruct w. auto 10.
    + left. exists value. auto.
  - right. rewrite (check_always_on_unset w Henv).
    eexists. split; [reflexivity|]. cbv - [stoi]. destruct w. auto 10.
Qed.

Lemma for_each_addPublisher_effect (tracked : list PubId) (st : State) :
  exists st' calls, for_each tracked addPublisher st = Ok (tt, st') /\
    publisherInfo_ st' =
      publisherInfo_ st ++ (tracked_record (publishers (ros st)) <$> tracked) /\
    smart_ st' = smart_ st /\ callback_ st' = callback_ st /\
    publishers (ros st') = publishers (ros st) /\
    publications (ros st') =
      foldl (fun m t => registry_after_add t m) (publications (ros st))
            ((fun p => pub_getTopic (publishers (ros st) p)) <$> tracked) /\
    (in_step st -> in_step st') /\
    trace st' = trace st ++ calls /\
    lookups calls = (fun p => pub_getTopic (publishers (ros st) p)) <$> tracked.
Proof.
  revert st. induction tracked as [|p tracked IH]; intros st.
  - exists st, []. simpl. rewrite !app_nil_r. auto 10.
  - destruct (addPublisher_effect p st)
      as (st1 & Hrun1 & Hinfo1 & Hsmart1 & Hcb1 & Hpubs1 & Hreg1 & Hstep1 & calls1 & Htr1 & Hlk1).
    destruct (IH st1)
      as (st2 & calls2 & Hrun2 & Hinfo2 & Hsmart2 & Hcb2 & Hpubs2 & Hreg2 & _ & Htr2 & Hlk2).
    exists st2, (calls1 ++ calls2). simpl for_each. unfold bind. rewrite Hrun1.
    split; [exact Hrun2|].
    split; [rewrite Hinfo2, Hinfo1, Hpubs1, fmap_cons, <- app_assoc; reflexivity|].
    split; [congruence|]. split; [congruence|]. split; [congruence|].
    split; [rewrite Hreg2, Hreg1, Hpubs1, fmap_cons; reflexivity|].
    split.
    { intros _. destruct (IH st1) as (st2' & calls2' & Hrun2' & _ & _ & _ & _ & _ & Hkeep & _).
      rewrite Hrun2 in Hrun2'. injection Hrun2' as <-. now apply Hkeep. }
    split; [now rewrite Htr2, Htr1, app_assoc|].
    rewrite lookups_app, Hlk1, Hlk2, Hpubs1, fmap_cons. reflexivity.
Qed.

Lemma foldl_registry_after_add (ts : list string) (m : gmap string nat) (t : string) :
  foldl (fun m t' => registry_after_add t' m) m ts !! t =
  (fun n => (n + length (List.filter (String.eqb t) ts))%nat) <$> (m !! t).
Proof.
  revert m. induction ts as [|a ts IH]; intros m; simpl.
  - destruct (m !! t); simpl; [f_equal; lia | reflexivity].
  - rewrite IH. destruct (String.eqb_spec t a) as [->|Hne].
    + unfold registry_after_add. destruct (m !! a) as [n|] eqn:Hm.
      * rewrite lookup_insert_eq. simpl. f_equal. lia.
      * rewrite Hm. reflexivity.
    + now rewrite registry_after_add_other.
Qed.

Lemma length_filter_fmap {A B} (f : B -> bool) (g : A -> B) (l : list A) :
  length (List.filter f (g <$> l)) = length (List.filter (fun x => f (g x)) l).
Proof.
  induction l as [|x l IH]; [reflexivity|].
  rewrite fmap_cons. simpl. destruct (f (g x)); simpl; now rewrite IH.
Qed.

Lemma SmartSubscriber_result (tracked : list PubId) (w : Ros) :
  (exists value, NO_SMART_SUBSCRIBE w = Some value /\ stoi value = out_of_range /\
                 SmartSubscriber tracked w = Fail Uncaught_out_of_range) \/
  (exists st, SmartSubscriber tracked w = Ok st /\
     publisherInfo_ st = tracked_record (publishers w) <$> tracked /\
     smart st = negb (always_on w) /\ in_step st /\
     callback_ st = bound_callbacks /\ publishers (ros st) = publishers w /\
     publications (ros st) =
       foldl (fun m t => registry_after_add t m) (publications w)
             ((fun p => pub_getTopic (publishers w p)) <$> tracked) /\
     lookups (trace st) = (fun p => pub_getTopic (publishers w p)) <$> tracked).
Proof.
  unfold SmartSubscriber, exec, bind.
  destruct (check_always_on_result w)
    as [(value & Henv & Hstoi & Hcheck)
       | (st0 & Hcheck & Hstep0 & Hcb0 & Hinfo0 & Hros0 & Hsmart0 & _ & Hlk0)].
  - left. exists value. now rewrite Hcheck.
  - right. rewrite Hcheck.
    destruct (for_each_addPublisher_effect tracked st0)
      as (st & calls & Hrun & Hinfo & Hsmart & Hcb & Hpubs & Hreg & Hstep & Htr & Hlk).
    rewrite Hrun. exists st. split; [reflexivity|].
    rewrite Hros0 in *. rewrite Hinfo0 in Hinfo.
    split; [exact Hinfo|].
    split; [unfold smart in *; congruence|].
    split; [now apply Hstep|]. split; [congruence|]. split; [exact Hpubs|].
    split; [exact Hreg|].
    now rewrite Htr, lookups_app, Hlk0, Hlk.
Qed.

(** X11. The constructor either lets [std::out_of_range] escape, which
    happens exactly for a value of [NO_SMART_SUBSCRIBE] that [std::stoi]
    rejects as out of range, or returns a subscriber that tracks the given
    publishers in the order given, each under its current topic; that is in
    smart mode unless the variable converted to a positive [int]; that is
    subscribed exactly when smart mode is off or one of the publishers has a
    subscriber; and whose callback object has both hooks bound to
    [subscribeCallback]. *)
Theorem constructor_outcome (trackedPublishers : list PubId) (w : Ros) :
  (exists value, NO_SMART_SUBSCRIBE w = Some value /\ stoi value = out_of_range /\
                 SmartSubscriber trackedPublishers w = Fail Uncaught_out_of_range) \/
  (exists st, SmartSubscriber trackedPublishers w = Ok st /\
     (forall value, NO_SMART_SUBSCRIBE w = Some value -> stoi value <> out_of_range) /\
     publisherInfo_ st = tracked_record (publishers w) <$> trackedPublishers /\
     smart st = negb (always_on w) /\
     isSubscribed st =
       always_on w ||
       existsb (fun p => (0 <? pub_getNumSubscribers (publishers w p))%N) trackedPublishers /\
     callback st = bound_callbacks /\
     publishers (ros st) = publishers w).
Proof.
  destruct (SmartSubscriber_result trackedPublishers w)
    as [Hthrow | (st & Hrun & Hinfo & Hsmart & Hstep & Hcb & Hpubs & _)].
  - now left.
  - right. exists st. split; [exact Hrun|].
    split.
    { intros value Henv Hstoi.
      rewrite (SmartSubscriber_out_of_range _ _ value Henv Hstoi) in Hrun. discriminate. }
    split; [exact Hinfo|]. split; [exact Hsmart|].
    split; [|split; [exact Hcb | exact Hpubs]].
    rewrite Hstep. unfold should_subscribe, any_subscribers.
    rewrite Hsmart, Hinfo, Hpubs, Bool.negb_involutive, existsb_fmap. reflexivity.
Qed.

(** X12. A constructor that returns has looked up the topic of each given
    publisher once, in the order given, and nothing else.  Under every topic
    the registry knows, the callback has gained one registration per given
    publisher advertising that topic; topics unknown to the registry stay
    unknown. *)
Theorem constructor_registers_every_publisher
    (trackedPublishers : list PubId) (w : Ros) (st : State) :
  SmartSubscriber trackedPublishers w = Ok st ->
  lookups (trace st) = (fun p => pub_getTopic (publishers w p)) <$> trackedPublishers /\
  forall t,
    publications (ros st) !! t =
    (fun n => (n + length (List.filter
                             (fun p => String.eqb t (pub_getTopic (publishers w p)))
                             trackedPublishers))%nat)
      <$> (publications w !! t).
Proof.
  intros Hrun.
  destruct (SmartSubscriber_result trackedPublishers w)
    as [(value & _ & _ & Hthrow) | (st' & Hrun' & _ & _ & _ & _ & _ & Hreg & Hlk)].
  - rewrite Hthrow in Hrun. discriminate.
  - rewrite Hrun' in Hrun. injection Hrun as <-.
    split; [exact Hlk|]. intros t. rewrite Hreg, foldl_registry_after_add.
    now rewrite length_filter_fmap.
Qed.

Lemma constructor_registers_every_publisher_witness :
  exists st,
    SmartSubscriber [0%nat; 1%nat] (world None two_publishers) = Ok st /\
    lookups (trace st) = ["/out"%string; "/aux"%string] /\
    publications (ros st) !! "/out"%string = Some 1%nat /\
    publications (ros st) !! "/new"%string = Some 0%nat /\
    publications (ros st) !! "/unknown"%string = None.
Proof.
  eexists. split; [vm_compute; reflexivity|].
  match goal with
  | |- lookups (trace ?s) = _ /\ _ =>
      destruct (constructor_registers_every_publisher
                  [0%nat; 1%nat] (world None two_publishers) s) as (Hlk & Hreg);
        [vm_compute; reflexivity|]
  end.
  split; [exact Hlk|].
  split; [rewrite Hreg; vm_compute; reflexivity|].
  split; [rewrite Hreg; vm_compute; reflexivity|].
  rewrite Hreg. vm_compute. reflexivity.
Defined.

(** ** Histories of operations *)

Lemma run_ops_keep_step (ops : list Operation) (st : State) :
  forallb (fun op => negb (is_removal op)) ops = true ->
  in_step st -> callback_ st = bound_callbacks ->
  exists st', run_ops ops st = Ok (tt, st') /\ in_step st' /\
              callback_ st' = bound_callbacks.
Proof.
  revert st. induction ops as [|op ops IH]; intros st Hops Hstep Hcb.
  - exists st. auto.
  - simpl in Hops. apply Bool.andb_true_iff in Hops as [Hop Hops].
    apply Bool.negb_true_iff in Hop.
    destruct (run_op_frame op st Hop) as (st1 & Hrun & Hcb1 & _ & _ & _ & Hkeep).
    destruct (IH st1 Hops) as (st2 & Hrun2 & Hstep2 & Hcb2).
    + apply Hkeep; [exact Hstep | now rewrite Hcb].
    + now rewrite Hcb1.
    + exists st2. unfold run_ops in *. simpl. unfold bind. rewrite Hrun. auto.
Qed.

(** X13. On a subscriber that came out of the constructor, any history of
    [subscribe], [addPublisher], [updateTopics], [setSmart],
    [subscribeCallback] calls and status notifications, in any order,
    returns and ends with the component subscribed exactly when smart mode is
    off or a tracked publication has a subscriber.  ([removePublisher] is the
    one operation left out.) *)
Theorem removal_free_histories_stay_in_step
    (trackedPublishers : list PubId) (w : Ros) (st : State) (ops : list Operation) :
  SmartSubscriber trackedPublishers w = Ok st ->
  forallb (fun op => negb (is_removal op)) ops = true ->
  exists st', run_ops ops st = Ok (tt, st') /\
    isSubscribed st' = negb (smart st') || any_subscribers st' /\
    callback st' = bound_callbacks.
Proof.
  intros Hrun Hops.
  destruct (SmartSubscriber_result trackedPublishers w)
    as [(value & _ & _ & Hthrow) | (st0 & Hrun0 & _ & _ & Hstep & Hcb & _)].
  - rewrite Hthrow in Hrun. discriminate.
  - rewrite Hrun0 in Hrun. injection Hrun as <-.
    exact (run_ops_keep_step ops st0 Hops Hstep Hcb).
Qed.

Lemma removal_free_histories_stay_in_step_witness :
  exists st,
    SmartSubscriber [0%nat; 1%nat] (world None two_publishers) = Ok st /\
    exists st',
      run_ops [OpSubscribe "/input" 5; OpDeliver 0%nat 0; OpUpdateTopics; OpSetSmart false;
               OpSetSmart true; OpAddPublisher 2%nat; OpDeliver 2%nat 3; OpSubscribeCallback]
              st = Ok (tt, st') /\
      isSubscribed st' = negb (smart st') || any_subscribers st'.
Proof.
  eexists. split; [vm_compute; reflexivity|].
  match goal with
  | |- exists st', run_ops ?ops ?s = _ /\ _ =>
      destruct (removal_free_histories_stay_in_step
                  [0%nat; 1%nat] (world None two_publishers) s ops)
        as (st' & Hrun & Hstep & _); [vm_compute; reflexivity | reflexivity |]
  end.
  exists st'. split; [exact Hrun | exact Hstep].
Defined.

(** X14. No operation on a constructed subscriber replaces or alters the
    callback object, and none changes the environment variable.  The mode
    flag changes through [setSmart] only, and the publishers are as the
    caller left them: the model changes them in a status notification
    only. *)
Theorem operations_keep_callback_and_mode (op : Operation) (st st' : State) :
  run_op op st = Ok (tt, st') ->
  callback st' = callback st /\
  NO_SMART_SUBSCRIBE (ros st') = NO_SMART_SUBSCRIBE (ros st) /\
  ((forall b, op <> OpSetSmart b) -> smart st' = smart st) /\
  ((forall p n, op <> OpDeliver p n) -> publishers (ros st') = publishers (ros st)).
Proof.
  intros Hrun. destruct (is_removal op) eqn:Hrem.
  - destruct op as [ | |t| | | | ]; try discriminate.
    simpl in Hrun. unfold bind, ret in Hrun. rewrite removePublisher_unfold in Hrun.
    destruct (find_if _ (publisherInfo_ st)) as [i|] eqn:Hfind.
    + set (st0 := set_publisherInfo_ (delete i (publisherInfo_ st)) st) in *.
      destruct (last (publisherInfo_ st0)) as [q|] eqn:Hlast.
      * destruct (removeCallback_effect t st0 q Hlast)
          as (st1 & Hrm & _ & _ & Hsmart & Hcb & Hpubs & Henv & _).
        rewrite Hrm in Hrun. injection Hrun as <-.
        unfold callback, smart. auto.
      * apply last_None in Hlast.
        rewrite (removeCallback_empty t st0 Hlast) in Hrun. discriminate.
    + injection Hrun as <-. auto.
  - destruct (run_op_frame op st Hrem)
      as (st1 & Hrun1 & Hcb & Henv & Hsmart & Hpubs & _).
    rewrite Hrun1 in Hrun. injection Hrun as <-.
    split; [exact Hcb|]. split; [exact Henv|]. split.
    + intros Hnot. destruct Hsmart as [Hsmart | (b & ->)]; [exact Hsmart|].
      now destruct (Hnot b).
    + intros Hnot. destruct Hpubs as [Hpubs | (p & n & ->)]; [exact Hpubs|].
      now destruct (Hnot p n).
Qed.

Lemma operations_keep_callback_and_mode_witness :
  exists st,
    SmartSubscriber [0%nat; 1%nat] (world None two_publishers) = Ok st /\
    exists st',
      run_op (OpRemovePublisher "/out") st = Ok (tt, st') /\
      callback st' = callback st /\ smart st' = smart st.
Proof.
  eexists. split; [vm_compute; reflexivity|].
  eexists. split; [vm_compute; reflexivity|].
  match goal with
  | |- callback ?s' = callback ?s /\ _ =>
      destruct (operations_keep_callback_and_mode (OpRemovePublisher "/out") s s')
        as (Hcb & _ & Hsmart & _); [vm_compute; reflexivity|]
  end.
  split; [exact Hcb|]. apply Hsmart. intros b. discriminate.
Defined.

(** ** How adding, removing and destroying compose *)

Lemma find_if_snoc {A} (pred : A -> bool) (l : list A) (x : A) :
  find_if pred l = None -> pred x = true ->
  find_if pred (l ++ [x]) = Some (length l).
Proof.
  intros Hnone Hx. induction l as [|a l IH]; simpl in *.
  - now rewrite Hx.
  - destruct (pred a); [discriminate|].
    apply fmap_None in Hnone. now rewrite (IH Hnone).
Qed.

Lemma existsb_delete {A} (f : A -> bool) (l : list A) (i : nat) :
  existsb f (delete i l) = true -> existsb f l = true.
Proof.
  revert i. induction l as [|a l IH]; intros [|i]; simpl; auto.
  - intros ->. apply Bool.orb_true_r.
  - intros H. apply Bool.orb_true_iff in H as [H|H].
    + now rewrite H.
    + rewrite (IH i H). apply Bool.orb_true_r.
Qed.

(** X15. Adding a publisher whose topic no tracked record's publisher
    advertises, to a subscriber that tracks at least one record, and then
    removing it by that topic, gives back the tracked records and the mode
    flag as they were.  The registry does not come back: the registration
    was made under the added publisher's topic, and the one taken away is
    under the stored topic of the record that is last again. *)
Theorem addPublisher_then_removePublisher
    (publisher : PubId) (st : State) (q : PublisherInfo) :
  last (publisherInfo_ st) = Some q ->
  (forall p, p ∈ publisherInfo_ st ->
     getTopic p (publishers (ros st)) <> pub_getTopic (publishers (ros st) publisher)) ->
  exists st1 st2,
    addPublisher publisher st = Ok (tt, st1) /\
    removePublisher (pub_getTopic (publishers (ros st) publisher)) st1 = Ok (true, st2) /\
    publisherInfo_ st2 = publisherInfo_ st /\
    smart st2 = smart st /\
    publications (ros st2) =
      registry_after_remove (topic q)
        (registry_after_add (pub_getTopic (publishers (ros st) publisher))
                            (publications (ros st))).
Proof.
  intros Hlast Hfresh.
  set (t := pub_getTopic (publishers (ros st) publisher)) in *.
  destruct (addPublisher_effect publisher st)
    as (st1 & Hrun1 & Hinfo1 & Hsmart1 & _ & Hpubs1 & Hreg1 & _).
  assert (Hfind : find_if (matches t (publishers (ros st1))) (publisherInfo_ st1)
                  = Some (length (publisherInfo_ st))).
  { rewrite Hinfo1, Hpubs1. apply find_if_snoc.
    - now apply find_if_untracked.
    - unfold matches, tracked_record. simpl. apply String.eqb_refl. }
  set (st0 := set_publisherInfo_ (delete (length (publisherInfo_ st)) (publisherInfo_ st1)) st1).
  assert (Hinfo0 : publisherInfo_ st0 = publisherInfo_ st).
  { unfold st0. simpl. rewrite Hinfo1.
    rewrite (delete_middle (publisherInfo_ st) []). apply app_nil_r. }
  assert (Hlast0 : last (publisherInfo_ st0) = Some q) by now rewrite Hinfo0.
  destruct (removeCallback_effect t st0 q Hlast0)
    as (st2 & Hrm & Hinfo2 & _ & Hsmart2 & _ & _ & _ & Hreg2 & _).
  exists st1, st2. split; [exact Hrun1|].
  split; [rewrite removePublisher_unfold, Hfind; fold st0; now rewrite Hrm|].
  split; [now rewrite Hinfo2|].
  split; [unfold smart; rewrite Hsmart2; exact Hsmart1|].
  rewrite Hreg2. unfold st0. simpl. now rewrite Hreg1.
Qed.

Lemma addPublisher_then_removePublisher_witness :
  exists st,
    SmartSubscriber [1%nat] (world None two_publishers) = Ok st /\
    exists st1 st2,
      addPublisher 0%nat st = Ok (tt, st1) /\
      removePublisher "/out" st1 = Ok (true, st2) /\
      publisherInfo_ st2 = publisherInfo_ st /\
      registered (ros st2) "/out" = 1%nat /\
      registered (ros st2) "/aux" = 0%nat.
Proof.
  eexists. split; [vm_compute; reflexivity|].
  match goal with
  | |- exists st1 st2, addPublisher _ ?s = _ /\ _ =>
      destruct (addPublisher_then_removePublisher 0%nat s
                  (tracked_record two_publishers 1%nat))
        as (st1 & st2 & Hadd & Hrm & Hinfo & _ & Hreg)
  end.
  - vm_compute. reflexivity.
  - intros p Hp. apply list_elem_of_singleton in Hp as ->. vm_compute. discriminate.
  - exists st1, st2. split; [exact Hadd|]. split; [exact Hrm|]. split; [exact Hinfo|].
    unfold registered. rewrite Hreg. split; vm_compute; reflexivity.
Defined.

(** X16. Registrations outlive the subscriber.  After a constructor that
    returned and a destructor run on its result, under every topic other than
    that of the last given publisher the registry holds everything the
    constructor put there: the destructor has taken none of it back. *)
Theorem registrations_survive_destruction
    (trackedPublishers : list PubId) (w : Ros) (st : State) (r : Remains) :
  SmartSubscriber trackedPublishers w = Ok st ->
  SmartSubscriber_dtor st = Ok r ->
  forall t,
    (forall p, last trackedPublishers = Some p -> t <> pub_getTopic (publishers w p)) ->
    publications (r_ros r) !! t =
    (fun n => (n + length (List.filter
                             (fun p => String.eqb t (pub_getTopic (publishers w p)))
                             trackedPublishers))%nat)
      <$> (publications w !! t).
Proof.
  intros Hctor Hdtor t Hother.
  destruct (SmartSubscriber_result trackedPublishers w)
    as [(value & _ & _ & Hthrow) | (st' & Hrun' & Hinfo & _ & _ & _ & _ & Hreg & _)].
  { rewrite Hthrow in Hctor. discriminate. }
  rewrite Hrun' in Hctor. injection Hctor as <-.
  assert (Hbuilt : publications (ros st') !! t =
                   (fun n => (n + length (List.filter
                                (fun p => String.eqb t (pub_getTopic (publishers w p)))
                                trackedPublishers))%nat) <$> (publications w !! t)).
  { rewrite Hreg, foldl_registry_after_add. now rewrite length_filter_fmap. }
  rewrite <- Hbuilt.
  unfold SmartSubscriber_dtor, exec, bind in Hdtor.
  destruct (last (publisherInfo_ st')) as [q|] eqn:Hlast.
  - destruct (dtor_loop (publisherInfo_ st') st' q Hlast)
      as (st1 & calls & Hloop & _ & _ & _ & _ & Hreg1 & _).
    rewrite Hloop in Hdtor. unfold modify in Hdtor. injection Hdtor as <-. simpl.
    rewrite Hreg1. apply iter_remove_other.
    rewrite Hinfo, fmap_last in Hlast.
    destruct (last trackedPublishers) as [p|] eqn:Hp; [|discriminate].
    injection Hlast as <-. simpl. now apply Hother.
  - apply last_None in Hlast. rewrite Hlast in Hdtor. simpl in Hdtor.
    unfold modify in Hdtor. injection Hdtor as <-. reflexivity.
Qed.

Lemma registrations_survive_destruction_witness :
  exists st r,
    SmartSubscriber [0%nat; 1%nat] (world None two_publishers) = Ok st /\
    SmartSubscriber_dtor st = Ok r /\
    publications (ros st) !! "/out"%string = Some 1%nat /\
    publications (r_ros r) !! "/out"%string = Some 1%nat.
Proof.
  eexists. eexists.
  split; [vm_compute; reflexivity|]. split; [vm_compute; reflexivity|].
  split; [vm_compute; reflexivity|].
  match goal with
  | |- publications (r_ros ?r) !! _ = _ =>
      rewrite (registrations_survive_destruction
                 [0%nat; 1%nat] (world None two_publishers) _ r
                 ltac:(vm_compute; reflexivity) ltac:(vm_compute; reflexivity) "/out"%string)
  end.
  - vm_compute. reflexivity.
  - intros p Hp. injection Hp as <-. vm_compute. discriminate.
Defined.

(** X17. When [removePublisher] erases a record and returns, on a subscriber
    whose subscription state was in step, the state is still in step exactly
    when smart mode is off, or a remaining tracked publication has a
    subscriber, or no tracked publication had one before.  It goes stale in
    the one case left: smart mode on and the erased record the last one with
    a subscriber. *)
Theorem removePublisher_stale_exactly_when
    (topic' : string) (st : State) (found : nat) (q : PublisherInfo) :
  find_if (matches topic' (publishers (ros st))) (publisherInfo_ st) = Some found ->
  last (delete found (publisherInfo_ st)) = Some q ->
  in_step st ->
  exists st',
    removePublisher topic' st = Ok (true, st') /\
    (in_step st' <->
     smart st = false \/ any_subscribers st' = true \/ any_subscribers st = false).
Proof.
  intros Hfind Hlast Hstep.
  set (st0 := set_publisherInfo_ (delete found (publisherInfo_ st)) st).
  destruct (removeCallback_effect topic' st0 q Hlast)
    as (st' & Hrm & Hinfo & Hsub & Hsmart & _ & Hpubs & _).
  exists st'. split; [rewrite removePublisher_unfold, Hfind; fold st0; now rewrite Hrm|].
  assert (Hmono : any_subscribers st' = true -> any_subscribers st = true).
  { unfold any_subscribers. rewrite Hinfo, Hpubs. simpl. apply existsb_delete. }
  unfold in_step, isSubscribed, should_subscribe, smart in *.
  rewrite Hsub, Hsmart. simpl. rewrite Hstep.
  destruct (smart_ st), (any_subscribers st'), (any_subscribers st); simpl;
    try (specialize (Hmono eq_refl); discriminate); intuition congruence.
Qed.

Lemma removePublisher_stale_exactly_when_witness :
  exists st,
    SmartSubscriber [0%nat; 1%nat] (world None two_publishers) = Ok st /\
    exists st',
      removePublisher "/out" st = Ok (true, st') /\ ~ in_step st'.
Proof.
  eexists. split; [vm_compute; reflexivity|].
  match goal with
  | |- exists st', removePublisher _ ?s = _ /\ _ =>
      destruct (removePublisher_stale_exactly_when "/out" s 0%nat
                  (tracked_record two_publishers 1%nat))
        as (st' & Hrun & Hiff);
        [vm_compute; reflexivity | vm_compute; reflexivity | vm_compute; reflexivity |]
  end.
  exists st'. split; [exact Hrun|]. intros Hstep. apply Hiff in Hstep.
  destruct Hstep as [H | [H | H]].
  - vm_compute in H. discriminate.
  - assert (Hst' : removePublisher "/out" _ = Ok (true, st')) by exact Hrun.
    vm_compute in Hst'. injection Hst' as <-. vm_compute in H. discriminate.
  - vm_compute in H. discriminate.
Defined.
